(** * AI Infographic Generator: the page renderer and its caller

    A shallow embedding of [src/app.py]:
    - [create_infographic_pdf] (the ReportLab page renderer, lines 38-116);
    - the button handler of [main] (lines 199-256), with the fenced-JSON
      clean-up of the upstream text.

    Conventions.
    - A Python [str] is a list of Unicode code points ([str := list N]), so
      that [len] counts characters as Python does.
    - Values decoded by [json.loads] are the inductive [value].
    - Page coordinates are ReportLab points.  The source computes them in
      binary floating point; here they are exact rationals ([Q]).  No
      property below depends on rounding.
    - A raised exception is the [Raise] branch of [result]; effects on the
      outside (files, screen, environment, upstream calls) are threaded
      through a [World]. *)

From Stdlib Require Import String Ascii.
From Stdlib Require Import List NArith ZArith QArith Lia Bool Arith.
Import ListNotations.

Set Warnings "-register-all".

(* ================================================================== *)
(** * Python strings *)
(* ================================================================== *)

Module Py.

Definition char := N.
Definition str := list char.

(** An ASCII literal as a Python string. *)
Definition text (s : string) : str :=
  map N_of_ascii (list_ascii_of_string s).

Fixpoint str_eqb (a b : str) : bool :=
  match a, b with
  | [], [] => true
  | x :: a', y :: b' => (x =? y)%N && str_eqb a' b'
  | _, _ => false
  end.

(** [len(s)] *)
Definition len (s : str) : nat := length s.

(** Unicode whitespace, as [str.split()], [str.strip()] and [str.isspace()]
    see it. *)
Definition isspace (c : char) : bool :=
  (((9 <=? c) && (c <=? 13)) || ((28 <=? c) && (c <=? 32))
   || (c =? 133) || (c =? 160) || (c =? 5760)
   || ((8192 <=? c) && (c <=? 8202))
   || (c =? 8232) || (c =? 8233) || (c =? 8239) || (c =? 8287)
   || (c =? 12288))%N.

(** [sep.join(parts)] *)
Fixpoint join (sep : str) (parts : list str) : str :=
  match parts with
  | [] => []
  | p :: rest =>
      match rest with
      | [] => p
      | _ :: _ => p ++ sep ++ join sep rest
      end
  end.

(** [s.split()]: maximal runs of non-whitespace characters.  [cur] holds the
    word being read, most recent character first. *)
Fixpoint split_ws_from (cur : str) (s : str) : list str :=
  match s with
  | [] => match cur with [] => [] | _ :: _ => [rev cur] end
  | c :: s' =>
      if isspace c
      then match cur with
           | [] => split_ws_from [] s'
           | _ :: _ => rev cur :: split_ws_from [] s'
           end
      else split_ws_from (c :: cur) s'
  end.

Definition split_ws (s : str) : list str := split_ws_from [] s.

(** [s.strip()] *)
Fixpoint lstrip (s : str) : str :=
  match s with
  | [] => []
  | c :: s' => if isspace c then lstrip s' else s
  end.

Definition rstrip (s : str) : str := rev (lstrip (rev s)).
Definition strip (s : str) : str := rstrip (lstrip s).

(** [s.startswith(p)] *)
Fixpoint startswith (p s : str) : bool :=
  match p, s with
  | [], _ => true
  | _ :: _, [] => false
  | a :: p', b :: s' => (a =? b)%N && startswith p' s'
  end.

(** [s.find(sep)]: index of the first occurrence, [None] for Python's -1. *)
Fixpoint find (sep s : str) : option nat :=
  if startswith sep s then Some 0%nat
  else match s with
       | [] => None
       | _ :: s' => option_map S (find sep s')
       end.

(** [sep in s] *)
Definition contains (sep s : str) : bool :=
  match find sep s with Some _ => true | None => false end.

(** [s.split(sep)] for a non-empty [sep]: cut at each occurrence found from
    the left, restarting after the separator.  The fuel is the number of
    cuts allowed; [split] gives one per character, which is never used up. *)
Fixpoint split_upto (fuel : nat) (sep s : str) : list str :=
  match fuel with
  | O => [s]
  | S fuel' =>
      match find sep s with
      | None => [s]
      | Some i => firstn i s :: split_upto fuel' sep (skipn (i + len sep) s)
      end
  end.

Definition split (sep s : str) : list str := split_upto (len s) sep s.

End Py.

Import Py.

(* ================================================================== *)
(** * Decoded JSON values, exceptions *)
(* ================================================================== *)

(** A Python float: the program never computes with one, it only prints it. *)
Inductive pyfloat :=
| Finite (mantissa exponent : Z)
| Infinity (negative : bool)
| NaN.

(** What [json.loads] can return. A [dict] keeps its items in insertion
    order; a lookup takes the first item with the key. *)
Inductive value :=
| VNone
| VBool (b : bool)
| VInt (z : Z)
| VFloat (f : pyfloat)
| VStr (s : str)
| VList (items : list value)
| VDict (items : list (str * value)).

Definition type_name (v : value) : string :=
  match v with
  | VNone => "NoneType"
  | VBool _ => "bool"
  | VInt _ => "int"
  | VFloat _ => "float"
  | VStr _ => "str"
  | VList _ => "list"
  | VDict _ => "dict"
  end.

Inductive exn_class :=
| AttributeError | TypeError | IndexError | JSONDecodeError | OSError
| UpstreamError.

(** An exception: its class and [str(e)]. The classes are subclasses of
    [Exception]; what is raised outside that class (a [KeyboardInterrupt],
    a [SystemExit], Streamlit's own stop and rerun signals) would pass
    through [except Exception] and is not part of this model. *)
Record exn := Exn { exn_class_of : exn_class; exn_message : str }.

Inductive result (A : Type) :=
| Ok (a : A)
| Raise (e : exn).

Arguments Ok {A} a.
Arguments Raise {A} e.

Definition bind {A B} (m : result A) (k : A -> result B) : result B :=
  match m with
  | Ok a => k a
  | Raise e => Raise e
  end.

Declare Scope py_scope.
Delimit Scope py_scope with py.
Notation "x <- m ;; k" := (bind m (fun x => k))
  (at level 61, m at next level, right associativity) : py_scope.
Notation "` s" := (text s) (at level 1, s at level 0, format "` s") : py_scope.
Open Scope py_scope.

(** [for x in items: body], the body updating a state [S] or raising. *)
Fixpoint for_in {A S} (items : list A) (body : S -> A -> result S) (s : S)
  : result S :=
  match items with
  | [] => Ok s
  | x :: rest => s' <- body s x ;; for_in rest body s'
  end.

(** [enumerate(items)] *)
Definition enumerate {A} (items : list A) : list (nat * A) :=
  combine (seq 0 (length items)) items.

(** ['T' object has no attribute 'name'] *)
Definition no_attribute (v : value) (name : string) : exn :=
  Exn AttributeError
      (`"'" ++ text (type_name v) ++ `"' object has no attribute '"
        ++ text name ++ `"'").

Fixpoint dict_get (items : list (str * value)) (key : str) (default : value)
  : value :=
  match items with
  | [] => default
  | (k, v) :: rest => if str_eqb k key then v else dict_get rest key default
  end.

(** [obj.get(key, default)]: only a dict has the method. *)
Definition get (obj : value) (key : str) (default : value) : result value :=
  match obj with
  | VDict items => Ok (dict_get items key default)
  | _ => Raise (no_attribute obj "get")
  end.

(** [obj.split()]: only a str has the method (among decoded JSON values). *)
Definition method_split (obj : value) : result (list str) :=
  match obj with
  | VStr s => Ok (split_ws s)
  | _ => Raise (no_attribute obj "split")
  end.

(** [obj[:n]]: lists and strings can be sliced. Slicing a dict raises
    [TypeError: unhashable type: 'slice'] up to Python 3.11 and a [KeyError]
    from Python 3.12 on; this model has the former, and what is stated about
    the class of an exception is stated for stats that are not a dict. The
    other values are not subscriptable. *)
Definition slice_to (n : nat) (obj : value) : result value :=
  match obj with
  | VList items => Ok (VList (firstn n items))
  | VStr s => Ok (VStr (firstn n s))
  | VDict _ => Raise (Exn TypeError `"unhashable type: 'slice'")
  | _ => Raise (Exn TypeError
                  (`"'" ++ text (type_name obj)
                    ++ `"' object is not subscriptable"))
  end.

(** The items a [for] loop draws from a value. *)
Definition iterate (obj : value) : result (list value) :=
  match obj with
  | VList items => Ok items
  | VStr s => Ok (map (fun c => VStr [c]) s)
  | VDict items => Ok (map (fun kv => VStr (fst kv)) items)
  | _ => Raise (Exn TypeError
                  (`"'" ++ text (type_name obj) ++ `"' object is not iterable"))
  end.

(* ================================================================== *)
(** * ReportLab: units, colours, canvas and text object *)
(* ================================================================== *)

Open Scope Q_scope.

(** [reportlab.lib.units], [reportlab.lib.pagesizes] *)
Definition inch : Q := 72.0.
Definition cm : Q := inch / 2.54.
Definition mm : Q := cm * 0.1.
Definition A4 : Q * Q := (210 * mm, 297 * mm).

Inductive colour := whitesmoke | cornflowerblue | white | black | gray.

(** A text object: where it starts, the cursor, the font, the leading, and
    the lines written so far, first line first. *)
Record TextObject := mkText {
  t_origin : Q * Q;
  t_x : Q;
  t_y : Q;
  t_fontname : string;
  t_fontsize : Q;
  t_leading : Q;
  t_lines : list str
}.

(** One canvas call that leaves a mark in the page. *)
Inductive op :=
| SetFillColor (col : colour)
| SetFont (name : string) (size : Q)
| Rect (x y w h : Q) (fill stroke : bool)
| RoundRect (x y w h radius : Q) (fill stroke : bool)
| DrawString (x y : Q) (s : str)
| DrawCentredString (x y : Q) (s : str)
| DrawText (t : TextObject).

Record Canvas := mkCanvas {
  c_filename : str;
  c_pagesize : Q * Q;
  c_fontname : string;
  c_fontsize : Q;
  c_leading : Q;
  c_code : list op
}.

Module Text.

(** [setFont(name, size)]: the leading follows the size unless given. *)
Definition setFont (name : string) (size : Q) (t : TextObject) : TextObject :=
  mkText (t_origin t) (t_x t) (t_y t) name size (size * 1.2) (t_lines t).

Definition setLeading (leading : Q) (t : TextObject) : TextObject :=
  mkText (t_origin t) (t_x t) (t_y t) (t_fontname t) (t_fontsize t) leading
         (t_lines t).

(** [textLine(s)]: write [s] at the cursor, then move the cursor down by
    the leading. *)
Definition textLine (s : str) (t : TextObject) : TextObject :=
  mkText (t_origin t) (t_x t) (t_y t - t_leading t) (t_fontname t)
         (t_fontsize t) (t_leading t) (t_lines t ++ [s]).

Definition getY (t : TextObject) : Q := t_y t.

End Text.

Module Cv.

(** [canvas.Canvas(filename, pagesize=...)]: Helvetica 12 to start with. *)
Definition new (filename : str) (pagesize : Q * Q) : Canvas :=
  mkCanvas filename pagesize "Helvetica" 12 14.4 [].

Definition emit (o : op) (c : Canvas) : Canvas :=
  mkCanvas (c_filename c) (c_pagesize c) (c_fontname c) (c_fontsize c)
           (c_leading c) (c_code c ++ [o]).

Definition setFillColor (col : colour) : Canvas -> Canvas :=
  emit (SetFillColor col).

Definition setFont (name : string) (size : Q) (c : Canvas) : Canvas :=
  mkCanvas (c_filename c) (c_pagesize c) name size (size * 1.2)
           (c_code c ++ [SetFont name size]).

Definition rect (x y w h : Q) (fill stroke : bool) : Canvas -> Canvas :=
  emit (Rect x y w h fill stroke).

Definition roundRect (x y w h radius : Q) (fill stroke : bool)
  : Canvas -> Canvas :=
  emit (RoundRect x y w h radius fill stroke).

Definition drawString (x y : Q) (s : str) : Canvas -> Canvas :=
  emit (DrawString x y s).

Definition drawCentredString (x y : Q) (s : str) : Canvas -> Canvas :=
  emit (DrawCentredString x y s).

(** [beginText(x, y)]: a text object at [(x, y)] with the canvas's font. *)
Definition beginText (x y : Q) (c : Canvas) : TextObject :=
  mkText (x, y) x y (c_fontname c) (c_fontsize c) (c_leading c) [].

Definition drawText (t : TextObject) : Canvas -> Canvas :=
  emit (DrawText t).

End Cv.

(* ================================================================== *)
(** * The outside world *)
(* ================================================================== *)

(** A saved page. *)
Record Document := mkDocument {
  doc_pagesize : Q * Q;
  doc_code : list op
}.

(** What Streamlit shows, one entry per call. *)
Inductive widget :=
| SidebarTitle (s : str)
| SidebarTextInput (label default : str)
| Title (s : str)
| TextInput (label : str)
| Button (label : str)
| Spinner (s : str)
| Error (s : str)
| Warning (s : str)
| Success (s : str)
| Markdown (s : str)
| Info (body : value)
| Columns (n : nat)
| Metric (column : nat) (label value : value)
| DownloadButton (label : str) (data : Document) (file_name mime : str).

Record World := mkWorld {
  environ : list (str * str);          (* [os.environ] *)
  files : list (str * Document);       (* files written, latest first *)
  denied : str -> option str;          (* paths that cannot be written, with
                                          the system's message *)
  screen : list widget;                (* what was shown, in order *)
  kickoffs : list (str * str)          (* upstream runs: (topic, api_key) *)
}.

(** A computation that acts on the world and returns or raises. What it did
    before raising stays done. *)
Definition IO (A : Type) := World -> result A * World.

Definition io_ret {A} (a : A) : IO A := fun w => (Ok a, w).

Definition io_bind {A B} (m : IO A) (k : A -> IO B) : IO B :=
  fun w =>
    match m w with
    | (Ok a, w') => k a w'
    | (Raise e, w') => (Raise e, w')
    end.

(** [try: body  except Exception as e: handler(e)]: every [exn] is an
    [Exception] and is handed to the handler. What Python raises outside
    [Exception] ([KeyboardInterrupt], [SystemExit], Streamlit's stop and
    rerun signals) passes an [except Exception] and has no [exn]: nothing
    is stated about it. *)
Definition try_except {A} (body : IO A) (handler : exn -> IO A) : IO A :=
  fun w =>
    match body w with
    | (Ok a, w') => (Ok a, w')
    | (Raise e, w') => handler e w'
    end.

Definition lift {A} (r : result A) : IO A := fun w => (r, w).

Notation "x <~ m ;; k" := (io_bind m (fun x => k))
  (at level 61, m at next level, right associativity) : py_scope.
Notation "m ;;; k" := (io_bind m (fun _ => k))
  (at level 61, right associativity) : py_scope.

Definition show (wd : widget) : IO unit :=
  fun w => (Ok tt, mkWorld (environ w) (files w) (denied w)
                           (screen w ++ [wd]) (kickoffs w)).

Fixpoint lookup {A} (key : str) (items : list (str * A)) : option A :=
  match items with
  | [] => None
  | (k, v) :: rest => if str_eqb k key then Some v else lookup key rest
  end.

(** [os.getenv(name)] *)
Definition getenv (name : str) : IO (option str) :=
  fun w => (Ok (lookup name (environ w)), w).

(** [os.environ[name] = v], for a [v] the environment takes (see
    [exportable]): Python raises [ValueError] on an embedded NUL and
    [UnicodeEncodeError] on a lone surrogate, which this model does not;
    what is stated about the export and the crew's run is stated for keys
    the environment takes. *)
Definition setenv (name v : str) : IO unit :=
  fun w => (Ok tt, mkWorld ((name, v) :: environ w) (files w) (denied w)
                           (screen w) (kickoffs w)).

(** [c.save()]: write the page to the canvas's file, or raise [OSError]. *)
Definition save (c : Canvas) : IO unit :=
  fun w =>
    match denied w (c_filename c) with
    | Some msg => (Raise (Exn OSError msg), w)
    | None =>
        (Ok tt,
         mkWorld (environ w)
                 ((c_filename c, mkDocument (c_pagesize c) (c_code c))
                    :: files w)
                 (denied w) (screen w) (kickoffs w))
    end.

(** [open(path, "rb")] *)
Definition open_rb (path : str) : IO Document :=
  fun w =>
    match lookup path (files w) with
    | Some d => (Ok d, w)
    | None => (Raise (Exn OSError (`"[Errno 2] No such file or directory: '"
                                     ++ path ++ `"'")), w)
    end.

(* ================================================================== *)
(** * The program *)
(* ================================================================== *)

Section App.

(** [str(v)] for a value that is not a str already: Python's own printing of
    numbers, [None], booleans, lists and dicts. Nothing in the program looks
    inside its result. It is taken as returning: Python's [str] raises
    [ValueError] on an int of more than 4300 digits, which [json.loads]
    never returns (its own [int()] has the same limit); see [printable]. *)
Variable repr : value -> str.

(** [str(v)], also what an f-string puts in place of [{v}]. *)
Definition py_str (v : value) : str :=
  match v with
  | VStr s => s
  | _ => repr v
  end.

(** ** 2. PDF generation engine *)

(** The threshold of the summary wrap (app.py line 99). *)
Definition wrap_limit : nat := 80.

(** The body of the summary loop (lines 97-101): [line] is the buffer. *)
Definition wrap_word (limit : nat) (st : list str * TextObject) (word : str)
  : list str * TextObject :=
  let '(line, text_object) := st in
  let line := line ++ [word] in
  if (limit <? len (join `" " line))%nat
  then ([], Text.textLine (join `" " line) text_object)
  else (line, text_object).

(** Lines 96-102: the loop, then the last [textLine]. *)
Definition wrap_into (limit : nat) (words : list str) (text_object : TextObject)
  : TextObject :=
  let '(line, text_object) := fold_left (wrap_word limit) words ([], text_object) in
  Text.textLine (join `" " line) text_object.

Definition slot_x (box_width : Q) (i : nat) : Q :=
  0.5 * inch + (inject_Z (Z.of_nat i) * (box_width + 0.2 * inch)).

(** The body of the stats loop (lines 69-80). *)
Definition stat_box (box_width box_y : Q) (c : Canvas) (i_stat : nat * value)
  : result Canvas :=
  let '(i, stat) := i_stat in
  let x_pos := slot_x box_width i in
  let c := Cv.setFillColor white c in
  let c := Cv.roundRect x_pos box_y box_width (1.2 * inch) 10 true false c in
  let c := Cv.setFillColor cornflowerblue c in
  let c := Cv.setFont "Helvetica-Bold" 20 c in
  v <- get stat `"value" (VStr `"") ;;
  let c := Cv.drawCentredString (x_pos + box_width / 2) (box_y + 0.7 * inch)
                                (py_str v) c in
  let c := Cv.setFillColor gray c in
  let c := Cv.setFont "Helvetica" 10 c in
  l <- get stat `"label" (VStr `"") ;;
  let c := Cv.drawCentredString (x_pos + box_width / 2) (box_y + 0.4 * inch)
                                (py_str l) c in
  Ok c.

(** The bullet of the fun-fact line, U+2022. *)
Definition bullet : char := 8226%N.

(** Lines 42-113: everything drawn on the canvas before it is saved. *)
Definition draw_page (limit : nat) (data : value) (filename : str)
  : result Canvas :=
  let c := Cv.new filename A4 in
  let width := fst A4 in
  let height := snd A4 in
  (* Background *)
  let c := Cv.setFillColor whitesmoke c in
  let c := Cv.rect 0 0 width height true true c in
  (* Header *)
  let c := Cv.setFillColor cornflowerblue c in
  let c := Cv.rect 0 (height - 1.5 * inch) width (1.5 * inch) true false c in
  (* Title *)
  let c := Cv.setFillColor white c in
  let c := Cv.setFont "Helvetica-Bold" 30 c in
  topic <- get data `"topic" (VStr `"Unknown Topic") ;;
  let c := Cv.drawCentredString (width / 2) (height - 1 * inch)
                                (`"Infographic: " ++ py_str topic) c in
  (* Stats section *)
  let y_pos := height - 2.5 * inch in
  let c := Cv.setFillColor black c in
  let c := Cv.setFont "Helvetica-Bold" 16 c in
  let c := Cv.drawString (0.5 * inch) y_pos `"Key Statistics" c in
  stats <- get data `"stats" (VList []) ;;
  let box_width := 2.2 * inch in
  let box_y := y_pos - 1.5 * inch in
  first3 <- slice_to 3 stats ;;
  items <- iterate first3 ;;
  c <- for_in (enumerate items) (stat_box box_width box_y) c ;;
  (* Summary section *)
  let y_pos := box_y - 0.5 * inch in
  let c := Cv.setFillColor black c in
  let c := Cv.setFont "Helvetica-Bold" 16 c in
  let c := Cv.drawString (0.5 * inch) y_pos `"Executive Summary" c in
  let y_pos := y_pos - 0.3 * inch in
  let c := Cv.setFont "Helvetica" 11 c in
  let text_object := Cv.beginText (0.5 * inch) y_pos c in
  let text_object := Text.setFont "Helvetica" 11 text_object in
  let text_object := Text.setLeading 14 text_object in
  summary_text <- get data `"summary" (VStr `"No summary available.") ;;
  words <- method_split summary_text ;;
  let text_object := wrap_into limit words text_object in
  let c := Cv.drawText text_object c in
  (* Fun fact *)
  let y_pos := Text.getY text_object - 0.5 * inch in
  let c := Cv.setFillColor black c in
  let c := Cv.setFont "Helvetica-Bold" 16 c in
  let c := Cv.drawString (0.5 * inch) y_pos `"Did You Know?" c in
  let y_pos := y_pos - 0.3 * inch in
  let c := Cv.setFont "Helvetica-Oblique" 11 c in
  fun_fact <- get data `"fun_fact" (VStr `"") ;;
  let c := Cv.drawString (0.5 * inch) y_pos
                         (bullet :: `" " ++ py_str fun_fact) c in
  Ok c.

(** [create_infographic_pdf(data, filename)] (lines 38-116), the threshold
    made a parameter. *)
Definition create_infographic_pdf_at (limit : nat) (data : value)
                                     (filename : str) : IO str :=
  c <~ lift (draw_page limit data filename) ;;
  save c ;;;
  io_ret filename.

Definition create_infographic_pdf : value -> str -> IO str :=
  create_infographic_pdf_at wrap_limit.

(** The default of the [filename] argument. *)
Definition default_filename : str := `"infographic.pdf".

(** ** 3. The upstream pipeline *)

(** [json.loads(text)]: the decoded value, or a [JSONDecodeError]. *)
Variable json_loads : str -> result value.

(** [str(crew.kickoff())] for a crew built for [topic] with [api_key]: the
    text the run returned, or the exception it raised. *)
Variable crew_kickoff : str -> str -> result str.

Definition kickoff (topic api_key : str) : IO str :=
  fun w =>
    (crew_kickoff topic api_key,
     mkWorld (environ w) (files w) (denied w) (screen w)
             (kickoffs w ++ [(topic, api_key)])).

(** [run_crew_research(topic, api_key)] (lines 122-193): export the key,
    build the crew, run it. *)
Definition run_crew_research (topic api_key : str) : IO str :=
  setenv `"GOOGLE_API_KEY" api_key ;;;
  kickoff topic api_key.

(** ** 4. The Streamlit front end *)

(** What the visitor did with the three inputs of the page. *)
Record Visitor := mkVisitor {
  typed_key : option str;       (* [None]: the key field left as it was *)
  typed_topic : str;
  pressed : bool
}.

Definition fence_json : str := `"```json".
Definition fence : str := `"```".

(** [parts[i]] *)
Definition item (parts : list str) (i : nat) : result str :=
  match nth_error parts i with
  | Some p => Ok p
  | None => Raise (Exn IndexError `"list index out of range")
  end.

(** "Clean JSON" (lines 221-225): from the upstream text to the text handed
    to [json.loads]. *)
Definition clean_json (crew_output : str) : result str :=
  let raw_json := strip crew_output in
  if contains fence_json raw_json then
    after <- item (split fence_json raw_json) 1 ;;
    item (split fence after) 0
  else if contains fence raw_json then
    after <- item (split fence raw_json) 1 ;;
    item (split fence after) 0
  else Ok raw_json.

Fixpoint io_for_in {A} (items : list A) (body : A -> IO unit) : IO unit :=
  match items with
  | [] => io_ret tt
  | x :: rest => body x ;;; io_for_in rest body
  end.

Definition key_hint : str :=
  `"If you get a 404 error, check your API Key permissions or try using model='gemini/gemini-1.5-flash-latest' in app.py".

(** Lines 216-250: the body of the [try]. The widgets are taken as shown
    whatever they are given; [st.metric] itself raises on a label that is
    not a str and on a value that is a list or a dict, so what is stated
    about the widgets of a record is stated for stats it accepts (see
    [metric_ok]). *)
Definition generate (topic api_key : str) : IO unit :=
  (* Run Crew *)
  crew_output <~ run_crew_research topic api_key ;;
  (* Clean JSON *)
  raw_json <~ lift (clean_json crew_output) ;;
  data <~ lift (json_loads raw_json) ;;
  (* Display *)
  show (Success `"Success!") ;;;
  shown_topic <~ lift (get data `"topic" (VStr topic)) ;;
  show (Markdown (`"## " ++ 128202%N :: `" " ++ py_str shown_topic)) ;;;
  summary <~ lift (get data `"summary" VNone) ;;
  show (Info summary) ;;;
  show (Columns 3) ;;;
  stats <~ lift (get data `"stats" (VList [])) ;;
  items <~ lift (iterate stats) ;;
  io_for_in (enumerate items)
    (fun i_stat =>
       let '(i, stat) := i_stat in
       if (i <? 3)%nat then
         l <~ lift (get stat `"label" VNone) ;;
         v <~ lift (get stat `"value" VNone) ;;
         show (Metric i l v)
       else io_ret tt) ;;;
  fun_fact <~ lift (get data `"fun_fact" VNone) ;;
  show (Warning (`"Did you know? " ++ py_str fun_fact)) ;;;
  (* PDF *)
  pdf_file <~ create_infographic_pdf data default_filename ;;
  f <~ open_rb pdf_file ;;
  show (DownloadButton `"Download PDF" f (topic ++ `"_infographic.pdf")
                       `"application/pdf").

(** Lines 252-256: the [except] clause. *)
Definition report (e : exn) : IO unit :=
  show (Error (`"Error: " ++ exn_message e)) ;;;
  show (Warning key_hint).

(** [x or ""] for a str or [None]. *)
Definition or_empty (x : option str) : str :=
  match x with
  | Some s => s
  | None => []
  end.

(** [not s] for a str. *)
Definition py_not (s : str) : bool :=
  match s with
  | [] => true
  | _ :: _ => false
  end.

(** [st.sidebar.text_input(label, value=default)]: what the visitor typed,
    the default if the field was left alone. *)
Definition sidebar_text_input (v : Visitor) (label default : str) : IO str :=
  show (SidebarTextInput label default) ;;;
  io_ret (match typed_key v with Some k => k | None => default end).

Definition text_input (v : Visitor) (label : str) : IO str :=
  show (TextInput label) ;;;
  io_ret (typed_topic v).

Definition button (v : Visitor) (label : str) : IO bool :=
  show (Button label) ;;;
  io_ret (pressed v).

(** [main()] (lines 199-256), for one visit of the page. *)
Definition main (v : Visitor) : IO unit :=
  show (SidebarTitle `"Configuration") ;;;
  (* Handle API Key *)
  env <~ getenv `"GOOGLE_API_KEY" ;;
  let env_api_key := or_empty env in
  api_key <~ sidebar_text_input v `"Gemini API Key" env_api_key ;;
  show (Title (127912%N :: `" AI Infographic Generator")) ;;;
  topic <~ text_input v
    `"Enter a topic (e.g., 'SpaceX', 'Bitcoin', 'Climate Change')" ;;
  clicked <~ button v `"Generate Infographic" ;;
  if clicked then
    if py_not api_key then
      show (Error `"Please enter your API Key.")
    else if py_not topic then
      show (Warning `"Please enter a topic.")
    else
      show (Spinner (129302%N :: `" Researching & Designing...")) ;;;
      try_except (generate topic api_key) report
  else io_ret tt.

End App.

(* ================================================================== *)
(** * Definitions used to state the properties *)
(* ================================================================== *)

(** ** The wrap as the specification words it

    Words are appended to a line buffer; when the joined buffer is longer
    than the threshold the line is flushed and a new one starts; when the
    words are used up the buffer is flushed as the last line. *)
Fixpoint wrap_spec (limit : nat) (buffer words : list str) : list str :=
  match words with
  | [] => [join `" " buffer]
  | word :: rest =>
      if (limit <? len (join `" " (buffer ++ [word])))%nat
      then join `" " (buffer ++ [word]) :: wrap_spec limit [] rest
      else wrap_spec limit (buffer ++ [word]) rest
  end.

Definition space : char := 32%N.
Definition newline : char := 10%N.

(** A word: at least one character, none of them whitespace. *)
Definition no_space (s : str) : Prop := Forall (fun c => isspace c = false) s.
Definition word (s : str) : Prop := s <> [] /\ no_space s.

(** [textLine] once per line. *)
Definition write_lines (lines : list str) (t : TextObject) : TextObject :=
  fold_left (fun t s => Text.textLine s t) lines t.

(** Where the breaks fall: a flushed line is one that became longer than the
    threshold with its last word and was not before; the last line is not
    longer than the threshold. *)
Definition breaks_at_overflow (limit : nat) (g : list str) : Prop :=
  exists before w,
    g = before ++ [w]
    /\ (len (join `" " before) <= limit < len (join `" " g))%nat.

(** The buffer left when the words are used up. *)
Fixpoint pending (limit : nat) (buffer words : list str) : list str :=
  match words with
  | [] => buffer
  | word :: rest =>
      if (limit <? len (join `" " (buffer ++ [word])))%nat
      then pending limit [] rest
      else pending limit (buffer ++ [word]) rest
  end.

(** The lines flushed inside the loop, before the last flush. *)
Fixpoint flushed (limit : nat) (buffer words : list str) : list str :=
  match words with
  | [] => []
  | word :: rest =>
      if (limit <? len (join `" " (buffer ++ [word])))%nat
      then join `" " (buffer ++ [word]) :: flushed limit [] rest
      else flushed limit (buffer ++ [word]) rest
  end.

(** ** What a page shows *)

(** The lines of the text objects drawn. *)
Definition text_lines (code : list op) : list str :=
  flat_map (fun o => match o with DrawText t => t_lines t | _ => [] end) code.

(** The rounded boxes drawn, in order: x, y, width, height. *)
Definition round_rects (code : list op) : list (Q * Q * Q * Q) :=
  flat_map (fun o => match o with
                     | RoundRect x y w h _ _ _ => [(x, y, w, h)]
                     | _ => []
                     end) code.

(** The centred strings drawn, in order: x, y, text. *)
Definition centred_strings (code : list op) : list (Q * Q * str) :=
  flat_map (fun o => match o with
                     | DrawCentredString x y s => [(x, y, s)]
                     | _ => []
                     end) code.

(** The left-aligned strings drawn, in order: x, y, text. *)
Definition plain_strings (code : list op) : list (Q * Q * str) :=
  flat_map (fun o => match o with
                     | DrawString x y s => [(x, y, s)]
                     | _ => []
                     end) code.

(** The height at which a given left-aligned string is drawn. *)
Definition height_of (s : str) (code : list op) : option Q :=
  match filter (fun p => str_eqb (snd p) s) (plain_strings code) with
  | (_, y, _) :: _ => Some y
  | [] => None
  end.

Definition is_dict (v : value) : bool :=
  match v with
  | VDict _ => true
  | _ => false
  end.

(** The geometry of the stats row (app.py lines 59, 65, 66). *)
Definition box_width : Q := 2.2 * inch.
Definition box_y : Q := snd A4 - 2.5 * inch - 1.5 * inch.

(** Where the summary text starts (lines 83, 88). *)
Definition summary_y : Q := box_y - 0.5 * inch - 0.3 * inch.

(** ** The page as the specification lays it out (section 4.1) *)

Section Layout.

Variable repr : value -> str.

(** Step 3, one box: the rounded box, its value in large bold type, its
    label in small type. *)
Definition stat_code (i_stat : nat * value) : list op :=
  let '(i, stat) := i_stat in
  match stat with
  | VDict fields =>
      [ SetFillColor white;
        RoundRect (slot_x box_width i) box_y box_width (1.2 * inch) 10
                  true false;
        SetFillColor cornflowerblue;
        SetFont "Helvetica-Bold" 20;
        DrawCentredString (slot_x box_width i + box_width / 2)
                          (box_y + 0.7 * inch)
                          (py_str repr (dict_get fields `"value" (VStr `"")));
        SetFillColor gray;
        SetFont "Helvetica" 10;
        DrawCentredString (slot_x box_width i + box_width / 2)
                          (box_y + 0.4 * inch)
                          (py_str repr (dict_get fields `"label" (VStr `""))) ]
  | _ => []
  end.

(** Step 4: the text object of the wrapped summary. *)
Definition summary_text (limit : nat) (words : list str) : TextObject :=
  wrap_into limit words
    (mkText (0.5 * inch, summary_y) (0.5 * inch) summary_y
            "Helvetica" 11 14 []).

(** Steps 1-5, for a topic, the stats that get a box, the words of the
    summary and the fun fact. *)
Definition page_code (limit : nat) (topic : value) (boxes : list value)
                     (words : list str) (fun_fact : value) : list op :=
  [ SetFillColor whitesmoke;
    Rect 0 0 (fst A4) (snd A4) true true;
    SetFillColor cornflowerblue;
    Rect 0 (snd A4 - 1.5 * inch) (fst A4) (1.5 * inch) true false;
    SetFillColor white;
    SetFont "Helvetica-Bold" 30;
    DrawCentredString (fst A4 / 2) (snd A4 - 1 * inch)
                      (`"Infographic: " ++ py_str repr topic);
    SetFillColor black;
    SetFont "Helvetica-Bold" 16;
    DrawString (0.5 * inch) (snd A4 - 2.5 * inch) `"Key Statistics" ]
  ++ flat_map stat_code (enumerate boxes)
  ++ [ SetFillColor black;
       SetFont "Helvetica-Bold" 16;
       DrawString (0.5 * inch) (box_y - 0.5 * inch) `"Executive Summary";
       SetFont "Helvetica" 11;
       DrawText (summary_text limit words);
       SetFillColor black;
       SetFont "Helvetica-Bold" 16;
       DrawString (0.5 * inch)
                  (Text.getY (summary_text limit words) - 0.5 * inch)
                  `"Did You Know?";
       SetFont "Helvetica-Oblique" 11;
       DrawString (0.5 * inch)
                  (Text.getY (summary_text limit words) - 0.5 * inch
                   - 0.3 * inch)
                  (bullet :: `" " ++ py_str repr fun_fact) ].

End Layout.

(** [stat.get(key, '')] for a stat that is a dict. *)
Definition stat_field (key : str) (stat : value) : value :=
  match stat with
  | VDict fields => dict_get fields key (VStr `"")
  | _ => VStr `""
  end.

(** The slot of box [i]: x, y, width, height. *)
Definition slot (i : nat) : Q * Q * Q * Q :=
  (slot_x box_width i, box_y, box_width, 1.2 * inch).

(** ** The record of the data model (section 3), every field optional *)

Record Stat := mkStat {
  stat_label : option str;
  stat_value : option str
}.

Record ResearchRecord := mkRecord {
  topic : option str;
  summary : option str;
  stats : option (list Stat);
  fun_fact : option str
}.

(** The dict [json.loads] gives for a record: a missing field has no key. *)
Definition field (key : str) (v : option value) : list (str * value) :=
  match v with
  | Some x => [(key, x)]
  | None => []
  end.

Definition stat_dict (s : Stat) : value :=
  VDict (field `"label" (option_map VStr (stat_label s))
         ++ field `"value" (option_map VStr (stat_value s))).

Definition record_fields (r : ResearchRecord) : list (str * value) :=
  field `"topic" (option_map VStr (topic r))
  ++ field `"summary" (option_map VStr (summary r))
  ++ field `"stats" (option_map (fun l => VList (map stat_dict l)) (stats r))
  ++ field `"fun_fact" (option_map VStr (fun_fact r)).

Definition record_dict (r : ResearchRecord) : value :=
  VDict (record_fields r).

Definition or_default {A} (default : A) (x : option A) : A :=
  match x with
  | Some a => a
  | None => default
  end.

(** The stats of a record that get a box. *)
Definition boxes_of (r : ResearchRecord) : list value :=
  firstn 3 (map stat_dict (or_default [] (stats r))).

(** What a record's saved page holds. *)
Definition record_page (repr : value -> str) (r : ResearchRecord) : Document :=
  mkDocument A4
    (page_code repr wrap_limit
       (VStr (or_default `"Unknown Topic" (topic r)))
       (boxes_of r)
       (split_ws (or_default `"No summary available." (summary r)))
       (VStr (or_default `"" (fun_fact r)))).

(** ** The fenced block the caller keeps *)

(** The text up to the next [sep], all of it if there is none. *)
Definition upto (sep rest : str) : str :=
  match find sep rest with
  | Some p => firstn p rest
  | None => rest
  end.

Definition upto_fence : str -> str := upto fence.

(** A run of four backticks. *)
Definition four_backticks : str := `"````".

(** What follows the first [```json] marker up to the next fence; without
    such a marker, what follows the first fence up to the next one; without
    any fence, the text. *)
Definition fenced_content (raw : str) : str :=
  match find fence_json raw with
  | Some i => upto_fence (skipn (i + len fence_json) raw)
  | None =>
      match find fence raw with
      | Some i => upto_fence (skipn (i + len fence) raw)
      | None => raw
      end
  end.

(** What lies between the first pair of fences, whatever their tag. *)
Definition first_fence_pair (raw : str) : str :=
  match find fence raw with
  | Some i => upto_fence (skipn (i + len fence) raw)
  | None => raw
  end.

(** ** The lines of a summary, and sample inputs *)

Definition summary_lines (limit : nat) (s : str) : list str :=
  t_lines (summary_text limit (split_ws s)).

(** A stand-in for Python's printing of values that are not strings. *)
Definition sample_repr (v : value) : str :=
  `"<" ++ text (type_name v) ++ `">".

(** A world where nothing has happened yet and every path can be written. *)
Definition sample_world : World :=
  mkWorld [] [] (fun _ => None) [] [].

(** A record with four stats, the second with a number as value, the third
    without a value. *)
Definition sample_stats : list value :=
  [ VDict [(`"label", VStr `"L1"); (`"value", VStr `"V1")];
    VDict [(`"label", VStr `"L2"); (`"value", VInt 2)];
    VDict [(`"label", VStr `"L3")];
    VDict [(`"label", VStr `"L4"); (`"value", VStr `"V4")] ].

Definition sample_fields : list (str * value) :=
  [(`"topic", VStr `"Mars"); (`"stats", VList sample_stats)].

(** An upstream that answers with text that is no JSON, and a [json.loads]
    that rejects everything. *)
Definition sample_crew (topic api_key : str) : result str :=
  Ok (`"Sorry, no data about " ++ topic).

Definition sample_loads (raw : str) : result value :=
  Raise (Exn JSONDecodeError `"Expecting value: line 1 column 1 (char 0)").

(** ** The page shown to the visitor before the button is looked at *)

Definition form (default_key : str) : list widget :=
  [ SidebarTitle `"Configuration";
    SidebarTextInput `"Gemini API Key" default_key;
    Title (127912%N :: `" AI Infographic Generator");
    TextInput `"Enter a topic (e.g., 'SpaceX', 'Bitcoin', 'Climate Change')";
    Button `"Generate Infographic" ].

(** The world once the form is on the screen. *)
Definition with_form (w : World) : World :=
  mkWorld (environ w) (files w) (denied w)
          (screen w ++ form (or_empty (lookup `"GOOGLE_API_KEY" (environ w))))
          (kickoffs w).

(** The key the handler sees: what was typed, else the environment's. *)
Definition api_key_of (v : Visitor) (w : World) : str :=
  match typed_key v with
  | Some k => k
  | None => or_empty (lookup `"GOOGLE_API_KEY" (environ w))
  end.

(** The widgets shown since the world was [w]. *)
Definition shown_since (w w' : World) : list widget :=
  skipn (length (screen w)) (screen w').

Definition is_error (wd : widget) : bool :=
  match wd with
  | Error _ => true
  | _ => false
  end.

(** A widget that shows something of the record. *)
Definition is_result (wd : widget) : bool :=
  match wd with
  | Success _ | Markdown _ | Info _ | Columns _ | Metric _ _ _
  | DownloadButton _ _ _ _ => true
  | _ => false
  end.

(** ** When the renderer gets through a record *)

Definition is_str (v : value) : bool :=
  match v with
  | VStr _ => true
  | _ => false
  end.

(** Stats the renderer can box: a list whose first three entries are dicts,
    or the empty string. *)
Definition stats_ok (stats : value) : bool :=
  match stats with
  | VList l => forallb is_dict (firstn 3 l)
  | VStr [] => true
  | _ => false
  end.

(** A dict whose stats (none, if missing) can be boxed and whose summary
    (the placeholder, if missing) is a str. *)
Definition renderable (data : value) : bool :=
  match data with
  | VDict fields =>
      stats_ok (dict_get fields `"stats" (VList []))
      && is_str (dict_get fields `"summary" (VStr `"No summary available."))
  | _ => false
  end.

Definition is_record_fault (cls : exn_class) : bool :=
  match cls with
  | AttributeError | TypeError => true
  | _ => false
  end.

(** The backtick, and texts without one. *)
Definition tick : char := 96%N.

Definition no_tick (s : str) : bool :=
  forallb (fun c => negb (c =? tick)%N) s.

(** A world where no path can be written. *)
Definition locked_world : World :=
  mkWorld [] [] (fun _ => Some `"[Errno 13] Permission denied") [] [].

(** A box that lies on the page. *)
Definition on_page (box : Q * Q * Q * Q) : Prop :=
  let '(x, y, w, h) := box in
  0 <= x /\ x + w <= fst A4 /\ 0 <= y /\ y + h <= snd A4.

(** A summary of 33 words of 81 characters each. *)
Definition long_summary : str :=
  join `" " (repeat (repeat 97%N 81) 33).

(** ** The handler after the crew's run *)

Section Present.

Variable repr : value -> str.
Variable json_loads : str -> result value.

(** Lines 220-250 of [main]: what the [try] does once the crew has
    answered. *)
Definition present (topic crew_output : str) : IO unit :=
  (* Clean JSON *)
  raw_json <~ lift (clean_json crew_output) ;;
  data <~ lift (json_loads raw_json) ;;
  (* Display *)
  show (Success `"Success!") ;;;
  shown_topic <~ lift (get data `"topic" (VStr topic)) ;;
  show (Markdown (`"## " ++ 128202%N :: `" " ++ py_str repr shown_topic)) ;;;
  summary <~ lift (get data `"summary" VNone) ;;
  show (Info summary) ;;;
  show (Columns 3) ;;;
  stats <~ lift (get data `"stats" (VList [])) ;;
  items <~ lift (iterate stats) ;;
  io_for_in (enumerate items)
    (fun i_stat =>
       let '(i, stat) := i_stat in
       if (i <? 3)%nat then
         l <~ lift (get stat `"label" VNone) ;;
         v <~ lift (get stat `"value" VNone) ;;
         show (Metric i l v)
       else io_ret tt) ;;;
  fun_fact <~ lift (get data `"fun_fact" VNone) ;;
  show (Warning (`"Did you know? " ++ py_str repr fun_fact)) ;;;
  (* PDF *)
  pdf_file <~ create_infographic_pdf repr data default_filename ;;
  f <~ open_rb pdf_file ;;
  show (DownloadButton `"Download PDF" f (topic ++ `"_infographic.pdf")
                       `"application/pdf").

(** [stat.get(key)] for a stat that is a dict. *)
Definition stat_entry (key : str) (stat : value) : value :=
  match stat with
  | VDict fields => dict_get fields key VNone
  | _ => VNone
  end.

(** The metric of stat [i]. *)
Definition metric_of (i_stat : nat * value) : widget :=
  Metric (fst i_stat) (stat_entry `"label" (snd i_stat))
         (stat_entry `"value" (snd i_stat)).

(** What the screen shows of a record: the success note, the topic (the
    typed one if the record has none), the summary, three columns, a metric
    for each of the first three stats, the fun fact. *)
Definition record_widgets (topic : str) (fields : list (str * value))
                          (stats : list value) : list widget :=
  [ Success `"Success!";
    Markdown (`"## " ++ 128202%N :: `" "
              ++ py_str repr (dict_get fields `"topic" (VStr topic)));
    Info (dict_get fields `"summary" VNone);
    Columns 3 ]
  ++ map metric_of (enumerate (firstn 3 stats))
  ++ [ Warning (`"Did you know? "
                ++ py_str repr (dict_get fields `"fun_fact" VNone)) ].

End Present.

(** What [st.metric] accepts: a str as label; a str, a number, a boolean
    or [None] as value. Streamlit raises a [TypeError] on anything else;
    the [Metric] widget of this model records the call as it is made, so
    what is stated about metrics on the screen is stated for stats that
    [st.metric] accepts. *)
Definition metric_ok (stat : value) : bool :=
  is_str (stat_entry `"label" stat)
  && match stat_entry `"value" stat with
     | VList _ | VDict _ => false
     | _ => true
     end.

(** ** What an action may change *)

(** [m] takes every world to one related to it by [R]. *)
Definition keeps (R : World -> World -> Prop) {A} (m : IO A) : Prop :=
  forall w, R w (snd (m w)).

(** The screen only grows, what can be written stays so, and no file but
    [infographic.pdf] changes. *)
Definition bystander (w w' : World) : Prop :=
  denied w' = denied w
  /\ (exists more, screen w' = screen w ++ more)
  /\ (forall other, other <> default_filename ->
        lookup other (files w') = lookup other (files w)).

(** Neither the environment nor the upstream is touched. *)
Definition offline (w w' : World) : Prop :=
  environ w' = environ w /\ kickoffs w' = kickoffs w.

(** A visit in which the handler runs the crew: the button pressed, a key
    and a topic given. *)
Definition runs_crew (v : Visitor) (w : World) : bool :=
  pressed v && negb (py_not (api_key_of v w))
  && negb (py_not (typed_topic v)).

Definition spinner : widget :=
  Spinner (129302%N :: `" Researching & Designing...").

(** A visitor who typed a key and a topic and pressed the button, a
    [json.loads] that gives the sample record, one that gives a record
    whose summary is a number, and an upstream that is down. *)
Definition sample_visitor : Visitor := mkVisitor (Some `"key") `"Mars" true.

Definition sample_loads_record (raw : str) : result value :=
  Ok (VDict sample_fields).

Definition sample_loads_number (raw : str) : result value :=
  Ok (VDict [(`"topic", VStr `"Mars"); (`"summary", VInt 42)]).

Definition sample_crew_down (topic api_key : str) : result str :=
  Raise (Exn UpstreamError `"404 model not found").

(** ** Values Python prints, keys the environment takes, records the
       renderer cannot tell apart *)

(** A value all of whose ints have at most 4300 digits: [str()] of a longer
    one raises [ValueError], and [json.loads] returns none. *)
Fixpoint printable (v : value) : bool :=
  match v with
  | VInt z => (Z.abs z <? 10 ^ 4300)%Z
  | VList items => forallb printable items
  | VDict items => forallb (fun kv => printable (snd kv)) items
  | _ => true
  end.

(** A str that [os.environ] takes as a value: no NUL, no surrogate, not
    too long for any platform. *)
Definition exportable (s : str) : bool :=
  forallb (fun c => (0 <? c) && ((c <? 55296)
                                  || ((57343 <? c) && (c <? 1114112))))%N s
  && (N.of_nat (length s) <=? 32000)%N.

(** The stats of a record are a dict. *)
Definition dict_stats (data : value) : bool :=
  match data with
  | VDict fields => is_dict (dict_get fields `"stats" (VList []))
  | _ => false
  end.

(** Two dicts in which [key] is looked up alike, whatever the default. *)
Definition reads_alike (key : str) (f1 f2 : list (str * value)) : Prop :=
  forall default, dict_get f1 key default = dict_get f2 key default.

(** Two records that agree on the four keys of the data model, whatever
    else they hold and in whatever order; data that is not a dict is only
    like itself. *)
Definition same_record (data1 data2 : value) : Prop :=
  match data1, data2 with
  | VDict f1, VDict f2 =>
      reads_alike `"topic" f1 f2 /\ reads_alike `"stats" f1 f2
      /\ reads_alike `"summary" f1 f2 /\ reads_alike `"fun_fact" f1 f2
  | _, _ => data1 = data2
  end.


(* ================================================================== *)
(** * Words and whitespace *)
(* ================================================================== *)

Lemma no_space_rev s : no_space s -> no_space (rev s).
Proof. apply Forall_rev. Qed.

Lemma split_ws_from_words cur s :
  no_space cur -> Forall word (split_ws_from cur s).
Proof.
  revert cur. induction s as [|c s IH]; intros cur Hcur; simpl.
  - destruct cur as [|a cur']; constructor; [|constructor].
    split; [|now apply no_space_rev].
    intro E. apply (f_equal (@length _)) in E.
    rewrite length_rev in E. discriminate.
  - destruct (isspace c) eqn:Hc.
    + destruct cur as [|a cur'].
      * apply IH. constructor.
      * constructor; [|apply IH; constructor].
        split; [|now apply no_space_rev].
        intro E. apply (f_equal (@length _)) in E.
        rewrite length_rev in E. discriminate.
    + apply IH. constructor; assumption.
Qed.

(** [split()] returns words. *)
Lemma split_ws_words s : Forall word (split_ws s).
Proof. apply split_ws_from_words. constructor. Qed.

(** A whitespace character ends the word being read and starts afresh. *)
Lemma split_ws_from_space cur s1 c s2 :
  isspace c = true ->
  split_ws_from cur (s1 ++ c :: s2) = split_ws_from cur s1 ++ split_ws s2.
Proof.
  intros Hc. revert cur.
  induction s1 as [|a s1 IH]; intros cur; simpl.
  - rewrite Hc. destruct cur; reflexivity.
  - destruct (isspace a).
    + destruct cur; simpl; rewrite IH; reflexivity.
    + apply IH.
Qed.

Lemma split_ws_from_no_space w cur s :
  no_space w -> split_ws_from cur (w ++ s) = split_ws_from (rev w ++ cur) s.
Proof.
  intros Hw. revert cur.
  induction Hw as [|a w Ha Hw IH]; intros cur; simpl.
  - reflexivity.
  - rewrite Ha, IH, <- app_assoc. reflexivity.
Qed.

Lemma split_ws_word w : word w -> split_ws w = [w].
Proof.
  intros [Hne Hw]. unfold split_ws.
  rewrite <- (app_nil_r w) at 1.
  rewrite split_ws_from_no_space by assumption.
  rewrite app_nil_r. simpl.
  destruct (rev w) eqn:E.
  - apply (f_equal (@rev _)) in E. rewrite rev_involutive in E.
    contradiction.
  - rewrite <- E, rev_involutive. reflexivity.
Qed.

(** Splitting a text joined by one whitespace character splits the parts. *)
Lemma split_ws_join c parts :
  isspace c = true ->
  split_ws (join [c] parts) = concat (map split_ws parts).
Proof.
  intros Hc. induction parts as [|p rest IH]; [reflexivity|].
  destruct rest as [|q rest].
  - simpl. rewrite app_nil_r. reflexivity.
  - change (join [c] (p :: q :: rest)) with (p ++ c :: join [c] (q :: rest)).
    unfold split_ws at 1. rewrite split_ws_from_space by assumption.
    fold (split_ws p). rewrite IH. reflexivity.
Qed.

Lemma split_ws_join_words c ws :
  isspace c = true -> Forall word ws -> split_ws (join [c] ws) = ws.
Proof.
  intros Hc Hws. rewrite split_ws_join by assumption.
  induction Hws as [|w ws Hw Hws IH]; [reflexivity|].
  simpl. rewrite split_ws_word by assumption. rewrite IH. reflexivity.
Qed.

(** Lines of words joined by a whitespace character, a line break say,
    split into the same words. *)
Lemma split_ws_lines c groups :
  isspace c = true ->
  Forall word (concat groups) ->
  split_ws (join [c] (map (join [space]) groups)) = concat groups.
Proof.
  intros Hc H. rewrite split_ws_join by assumption.
  rewrite map_map.
  induction groups as [|g groups IH]; [reflexivity|].
  simpl in *. apply Forall_app in H. destruct H as [Hg Hrest].
  rewrite split_ws_join_words by (reflexivity || assumption).
  rewrite IH by assumption. reflexivity.
Qed.

(* ================================================================== *)
(** * The summary loop *)
(* ================================================================== *)

Lemma write_lines_lines lines t :
  t_lines (write_lines lines t) = t_lines t ++ lines.
Proof.
  revert t. induction lines as [|l lines IH]; intros t; simpl.
  - now rewrite app_nil_r.
  - rewrite IH. simpl. now rewrite <- app_assoc.
Qed.

Lemma write_lines_leading lines t :
  t_leading (write_lines lines t) = t_leading t.
Proof.
  revert t. induction lines as [|l lines IH]; intros t; simpl; [reflexivity|].
  now rewrite IH.
Qed.

(** Each line moves the cursor down by the leading. *)
Lemma write_lines_y lines t :
  t_y (write_lines lines t)
  == t_y t - inject_Z (Z.of_nat (length lines)) * t_leading t.
Proof.
  revert t. induction lines as [|l lines IH]; intros t.
  - simpl. ring.
  - change (write_lines (l :: lines) t)
      with (write_lines lines (Text.textLine l t)).
    rewrite IH. simpl t_y. simpl t_leading. cbn [length].
    rewrite Nat2Z.inj_succ, <- Z.add_1_r, inject_Z_plus.
    change (inject_Z 1) with 1. ring.
Qed.

(** The loop of the source against the procedure of the specification. *)
Lemma wrap_loop limit words : forall buffer t,
  (let '(line, t') := fold_left (wrap_word limit) words (buffer, t) in
   Text.textLine (join `" " line) t')
  = write_lines (wrap_spec limit buffer words) t.
Proof.
  induction words as [|w words IH]; intros buffer t; simpl fold_left.
  - reflexivity.
  - simpl wrap_spec. unfold wrap_word at 1.
    destruct (limit <? len (join `" " (buffer ++ [w])))%nat; apply IH.
Qed.

Lemma wrap_into_spec limit words t :
  wrap_into limit words t = write_lines (wrap_spec limit [] words) t.
Proof. unfold wrap_into. apply wrap_loop. Qed.

(** The lines are the words, grouped. *)
Lemma wrap_spec_groups limit words : forall buffer,
  exists groups,
    wrap_spec limit buffer words = map (join `" ") groups
    /\ concat groups = buffer ++ words.
Proof.
  induction words as [|w words IH]; intros buffer; simpl.
  - exists [buffer]. simpl. now rewrite !app_nil_r.
  - destruct (limit <? len (join `" " (buffer ++ [w])))%nat.
    + destruct (IH []) as (groups & E & C).
      exists ((buffer ++ [w]) :: groups). simpl.
      rewrite E, C, <- app_assoc. auto.
    + destruct (IH (buffer ++ [w])) as (groups & E & C).
      exists groups. rewrite E, C, <- app_assoc. auto.
Qed.

Lemma wrap_spec_breaks limit words : forall buffer,
  (len (join `" " buffer) <= limit)%nat ->
  exists groups last,
    wrap_spec limit buffer words
      = map (join `" ") groups ++ [join `" " last]
    /\ buffer ++ words = concat groups ++ last
    /\ Forall (breaks_at_overflow limit) groups
    /\ (len (join `" " last) <= limit)%nat.
Proof.
  induction words as [|w words IH]; intros buffer Hb; simpl.
  - exists [], buffer. simpl. rewrite app_nil_r. auto.
  - destruct (limit <? len (join `" " (buffer ++ [w])))%nat eqn:E.
    + apply Nat.ltb_lt in E.
      destruct (IH []) as (groups & last & E1 & E2 & F & L);
        [simpl; lia|].
      exists ((buffer ++ [w]) :: groups), last. simpl.
      rewrite E1. simpl in E2. rewrite E2, <- !app_assoc. simpl.
      repeat split; auto.
      constructor; [|assumption].
      exists buffer, w. auto.
    + apply Nat.ltb_ge in E.
      destruct (IH (buffer ++ [w])) as (groups & last & E1 & E2 & F & L);
        [assumption|].
      exists groups, last. rewrite E1, <- E2, <- app_assoc. auto.
Qed.

(* ================================================================== *)
(** * The renderer draws the layout *)
(* ================================================================== *)

Lemma str_eqb_refl s : str_eqb s s = true.
Proof.
  induction s as [|c s IH]; simpl; [reflexivity|].
  now rewrite N.eqb_refl, IH.
Qed.

Lemma str_eqb_eq a b : str_eqb a b = true <-> a = b.
Proof.
  split; [|intros ->; apply str_eqb_refl].
  revert b. induction a as [|x a IH]; destruct b as [|y b]; simpl;
    try discriminate; auto.
  intros H. apply andb_prop in H. destruct H as [H1 H2].
  apply N.eqb_eq in H1. apply IH in H2. congruence.
Qed.

Lemma lookup_head {A} key (x : A) items :
  lookup key ((key, x) :: items) = Some x.
Proof. simpl. now rewrite str_eqb_refl. Qed.

Section Renderer.

Variable repr : value -> str.

(** The stats loop adds the code of each box and touches nothing else of
    what is saved. *)
Lemma stat_loop boxes : forall start c,
  forallb is_dict boxes = true ->
  exists c',
    for_in (combine (seq start (length boxes)) boxes)
           (stat_box repr box_width box_y) c = Ok c'
    /\ c_code c' = c_code c
                   ++ flat_map (stat_code repr)
                        (combine (seq start (length boxes)) boxes)
    /\ c_filename c' = c_filename c
    /\ c_pagesize c' = c_pagesize c.
Proof.
  induction boxes as [|b boxes IH]; intros start c Hb.
  - exists c. simpl. rewrite app_nil_r. auto.
  - simpl in Hb. apply andb_prop in Hb. destruct Hb as [Hd Hrest].
    destruct b; try discriminate.
    cbn [length seq combine for_in stat_box bind get flat_map stat_code].
    destruct (IH (S start)
                 (Cv.drawCentredString
                    (slot_x box_width start + box_width / 2)
                    (box_y + 0.4 * inch)
                    (py_str repr (dict_get items `"label" (VStr `"")))
                 (Cv.setFont "Helvetica" 10
                 (Cv.setFillColor gray
                 (Cv.drawCentredString
                    (slot_x box_width start + box_width / 2)
                    (box_y + 0.7 * inch)
                    (py_str repr (dict_get items `"value" (VStr `"")))
                 (Cv.setFont "Helvetica-Bold" 20
                 (Cv.setFillColor cornflowerblue
                 (Cv.roundRect (slot_x box_width start) box_y box_width
                               (1.2 * inch) 10 true false
                 (Cv.setFillColor white c))))))))
                 Hrest) as (c' & E & Hcode & Hf & Hp).
    exists c'. split; [exact E|].
    rewrite Hcode, Hf, Hp. cbn [c_code c_filename c_pagesize
      Cv.drawCentredString Cv.setFont Cv.setFillColor Cv.roundRect Cv.emit].
    rewrite <- !app_assoc. auto.
Qed.

(** The renderer on a dict whose stats can be sliced into dicts and whose
    summary is a str: the canvas holds the layout. *)
Lemma draw_page_layout limit fields filename first3 boxes words :
  slice_to 3 (dict_get fields `"stats" (VList [])) = Ok first3 ->
  iterate first3 = Ok boxes ->
  forallb is_dict boxes = true ->
  method_split (dict_get fields `"summary" (VStr `"No summary available."))
    = Ok words ->
  exists c,
    draw_page repr limit (VDict fields) filename = Ok c
    /\ c_code c
       = page_code repr limit
           (dict_get fields `"topic" (VStr `"Unknown Topic"))
           boxes words
           (dict_get fields `"fun_fact" (VStr `""))
    /\ c_filename c = filename
    /\ c_pagesize c = A4.
Proof.
  intros Hslice Hiter Hdict Hsplit.
  unfold draw_page. cbn [get bind].
  rewrite Hslice. cbn [bind]. rewrite Hiter. cbn [bind].
  match goal with
  | |- context [for_in (enumerate boxes) _ ?c0] =>
      destruct (stat_loop boxes 0 c0 Hdict) as (c' & E & Hcode & Hf & Hp)
  end.
  unfold enumerate. unfold box_width, box_y in E. rewrite E. cbn [bind].
  rewrite Hsplit. cbn [bind].
  eexists. split; [reflexivity|].
  cbn [c_code c_filename c_pagesize Cv.drawString Cv.drawText Cv.setFont
       Cv.setFillColor Cv.emit Cv.beginText c_fontname c_fontsize c_leading
       Text.setFont Text.setLeading t_origin t_x t_y t_lines t_fontname
       t_fontsize t_leading].
  rewrite Hcode, Hf, Hp.
  cbn [c_code c_filename c_pagesize Cv.drawString Cv.drawCentredString
       Cv.rect Cv.new Cv.setFont Cv.setFillColor Cv.emit app].
  split; [|split; reflexivity].
  unfold page_code, enumerate, summary_text.
  rewrite <- !app_assoc. reflexivity.
Qed.

(** Saving the page: the file holds the layout and the path comes back. *)
Lemma create_infographic_pdf_layout limit fields filename first3 boxes words w :
  slice_to 3 (dict_get fields `"stats" (VList [])) = Ok first3 ->
  iterate first3 = Ok boxes ->
  forallb is_dict boxes = true ->
  method_split (dict_get fields `"summary" (VStr `"No summary available."))
    = Ok words ->
  denied w filename = None ->
  create_infographic_pdf_at repr limit (VDict fields) filename w
  = (Ok filename,
     mkWorld (environ w)
       ((filename,
         mkDocument A4
           (page_code repr limit
              (dict_get fields `"topic" (VStr `"Unknown Topic"))
              boxes words
              (dict_get fields `"fun_fact" (VStr `""))))
          :: files w)
       (denied w) (screen w) (kickoffs w)).
Proof.
  intros Hslice Hiter Hdict Hsplit Hw.
  destruct (draw_page_layout limit fields filename first3 boxes words
              Hslice Hiter Hdict Hsplit)
    as (c & E & Hcode & Hf & Hp).
  unfold create_infographic_pdf_at, io_bind, lift, save, io_ret.
  rewrite E, Hf, Hw, Hcode, Hp. reflexivity.
Qed.

End Renderer.

(* ================================================================== *)
(** * What the layout shows *)
(* ================================================================== *)

Section Shown.

Variable repr : value -> str.

Lemma stat_code_text_lines l : text_lines (flat_map (stat_code repr) l) = [].
Proof.
  induction l as [|[i stat] l IH]; [reflexivity|].
  unfold text_lines in *. cbn [flat_map]. rewrite flat_map_app, IH.
  destruct stat; reflexivity.
Qed.

Lemma stat_code_plain_strings l :
  plain_strings (flat_map (stat_code repr) l) = [].
Proof.
  induction l as [|[i stat] l IH]; [reflexivity|].
  unfold plain_strings in *. cbn [flat_map]. rewrite flat_map_app, IH.
  destruct stat; reflexivity.
Qed.

Lemma stat_code_round_rects boxes : forall start,
  forallb is_dict boxes = true ->
  round_rects (flat_map (stat_code repr)
                 (combine (seq start (length boxes)) boxes))
  = map slot (seq start (length boxes)).
Proof.
  induction boxes as [|b boxes IH]; intros start H; [reflexivity|].
  simpl in H. apply andb_prop in H. destruct H as [Hb H].
  destruct b; try discriminate.
  unfold round_rects in *.
  cbn [length seq combine flat_map map]. rewrite flat_map_app, IH by exact H.
  reflexivity.
Qed.

Lemma stat_code_centred boxes : forall start,
  forallb is_dict boxes = true ->
  centred_strings (flat_map (stat_code repr)
                     (combine (seq start (length boxes)) boxes))
  = flat_map (fun i_stat : nat * value =>
                [ (slot_x box_width (fst i_stat) + box_width / 2,
                   box_y + 0.7 * inch,
                   py_str repr (stat_field `"value" (snd i_stat)));
                  (slot_x box_width (fst i_stat) + box_width / 2,
                   box_y + 0.4 * inch,
                   py_str repr (stat_field `"label" (snd i_stat))) ])
             (combine (seq start (length boxes)) boxes).
Proof.
  induction boxes as [|b boxes IH]; intros start H; [reflexivity|].
  simpl in H. apply andb_prop in H. destruct H as [Hb H].
  destruct b; try discriminate.
  unfold centred_strings in *.
  cbn [length seq combine flat_map]. rewrite flat_map_app, IH by exact H.
  reflexivity.
Qed.

Lemma page_text_lines limit topic boxes words fun_fact :
  text_lines (page_code repr limit topic boxes words fun_fact)
  = wrap_spec limit [] words.
Proof.
  unfold page_code, text_lines. rewrite !flat_map_app.
  fold (text_lines (flat_map (stat_code repr) (enumerate boxes))).
  rewrite stat_code_text_lines. cbn [flat_map app].
  unfold summary_text. rewrite wrap_into_spec, write_lines_lines.
  cbn [t_lines app]. now rewrite app_nil_r.
Qed.

Lemma page_round_rects limit topic boxes words fun_fact :
  forallb is_dict boxes = true ->
  round_rects (page_code repr limit topic boxes words fun_fact)
  = map slot (seq 0 (length boxes)).
Proof.
  intros H. unfold page_code, round_rects. rewrite !flat_map_app.
  fold (round_rects (flat_map (stat_code repr) (enumerate boxes))).
  unfold enumerate. rewrite stat_code_round_rects by exact H.
  cbn [flat_map app]. now rewrite app_nil_r.
Qed.

Lemma page_centred limit topic boxes words fun_fact :
  forallb is_dict boxes = true ->
  centred_strings (page_code repr limit topic boxes words fun_fact)
  = (fst A4 / 2, snd A4 - 1 * inch, `"Infographic: " ++ py_str repr topic)
    :: flat_map (fun i_stat : nat * value =>
                [ (slot_x box_width (fst i_stat) + box_width / 2,
                   box_y + 0.7 * inch,
                   py_str repr (stat_field `"value" (snd i_stat)));
                  (slot_x box_width (fst i_stat) + box_width / 2,
                   box_y + 0.4 * inch,
                   py_str repr (stat_field `"label" (snd i_stat))) ])
             (enumerate boxes).
Proof.
  intros H. unfold page_code, centred_strings. rewrite !flat_map_app.
  fold (centred_strings (flat_map (stat_code repr) (enumerate boxes))).
  unfold enumerate. rewrite stat_code_centred by exact H.
  cbn [flat_map app]. now rewrite app_nil_r.
Qed.

Lemma page_plain_strings limit topic boxes words fun_fact :
  plain_strings (page_code repr limit topic boxes words fun_fact)
  = [ (0.5 * inch, snd A4 - 2.5 * inch, `"Key Statistics");
      (0.5 * inch, box_y - 0.5 * inch, `"Executive Summary");
      (0.5 * inch, Text.getY (summary_text limit words) - 0.5 * inch,
       `"Did You Know?");
      (0.5 * inch,
       Text.getY (summary_text limit words) - 0.5 * inch - 0.3 * inch,
       bullet :: `" " ++ py_str repr fun_fact) ].
Proof.
  unfold page_code, plain_strings. rewrite !flat_map_app.
  fold (plain_strings (flat_map (stat_code repr) (enumerate boxes))).
  rewrite stat_code_plain_strings. reflexivity.
Qed.

(** The heading of the fun fact sits half an inch below the cursor the
    summary left, which went down one leading per line. *)
Lemma page_heading_height limit topic boxes words fun_fact :
  exists y,
    height_of `"Did You Know?"
              (page_code repr limit topic boxes words fun_fact) = Some y
    /\ y == summary_y
            - inject_Z (Z.of_nat (length (wrap_spec limit [] words))) * 14
            - 0.5 * inch.
Proof.
  exists (Text.getY (summary_text limit words) - 0.5 * inch).
  split.
  - unfold height_of. rewrite page_plain_strings. reflexivity.
  - unfold Text.getY, summary_text. rewrite wrap_into_spec, write_lines_y.
    reflexivity.
Qed.

End Shown.

(* ================================================================== *)
(** * The loop, flush by flush *)
(* ================================================================== *)

Lemma wrap_spec_flushed limit words : forall buffer,
  wrap_spec limit buffer words
  = flushed limit buffer words ++ [join `" " (pending limit buffer words)].
Proof.
  induction words as [|w words IH]; intros buffer; simpl; [reflexivity|].
  destruct (limit <? len (join `" " (buffer ++ [w])))%nat;
    rewrite IH; reflexivity.
Qed.

Lemma pending_loop limit words : forall buffer t,
  fst (fold_left (wrap_word limit) words (buffer, t))
  = pending limit buffer words.
Proof.
  induction words as [|w words IH]; intros buffer t; simpl; [reflexivity|].
  destruct (limit <? len (join `" " (buffer ++ [w])))%nat; apply IH.
Qed.

Lemma pending_snoc limit init last : forall buffer,
  pending limit buffer (init ++ [last])
  = if (limit <? len (join `" " (pending limit buffer init ++ [last])))%nat
    then []
    else pending limit buffer init ++ [last].
Proof.
  induction init as [|w init IH]; intros buffer; simpl; [reflexivity|].
  destruct (limit <? len (join `" " (buffer ++ [w])))%nat; apply IH.
Qed.

Lemma flushed_snoc limit init last : forall buffer,
  flushed limit buffer (init ++ [last])
  = flushed limit buffer init
    ++ (if (limit <? len (join `" " (pending limit buffer init ++ [last])))%nat
        then [join `" " (pending limit buffer init ++ [last])]
        else []).
Proof.
  induction init as [|w init IH]; intros buffer; simpl.
  - destruct (limit <? len (join `" " (buffer ++ [last])))%nat; reflexivity.
  - destruct (limit <? len (join `" " (buffer ++ [w])))%nat;
      rewrite IH; reflexivity.
Qed.

(* ================================================================== *)
(** * Rendering a record of the data model *)
(* ================================================================== *)

Section Records.

Variable repr : value -> str.

Lemma record_topic r d :
  dict_get (record_fields r) `"topic" d
  = or_default d (option_map VStr (topic r)).
Proof. destruct r as [[t|] [s|] [l|] [f|]]; reflexivity. Qed.

Lemma record_summary r d :
  dict_get (record_fields r) `"summary" d
  = or_default d (option_map VStr (summary r)).
Proof. destruct r as [[t|] [s|] [l|] [f|]]; reflexivity. Qed.

Lemma record_stats r d :
  dict_get (record_fields r) `"stats" d
  = or_default d (option_map (fun l => VList (map stat_dict l)) (stats r)).
Proof. destruct r as [[t|] [s|] [l|] [f|]]; reflexivity. Qed.

Lemma record_fun_fact r d :
  dict_get (record_fields r) `"fun_fact" d
  = or_default d (option_map VStr (fun_fact r)).
Proof. destruct r as [[t|] [s|] [l|] [f|]]; reflexivity. Qed.

Lemma stat_dicts l : forallb is_dict (map stat_dict l) = true.
Proof. induction l; simpl; auto. Qed.

Lemma boxes_of_dicts r : forallb is_dict (boxes_of r) = true.
Proof.
  unfold boxes_of. rewrite firstn_map. apply stat_dicts.
Qed.

Lemma boxes_of_length r :
  length (boxes_of r) = Nat.min 3 (length (or_default [] (stats r))).
Proof.
  unfold boxes_of. rewrite length_firstn, length_map. reflexivity.
Qed.

(** A record renders, whatever is missing, if the path can be written. *)
Lemma record_rendered limit r filename w :
  denied w filename = None ->
  create_infographic_pdf_at repr limit (record_dict r) filename w
  = (Ok filename,
     mkWorld (environ w)
       ((filename,
         mkDocument A4
           (page_code repr limit
              (VStr (or_default `"Unknown Topic" (topic r)))
              (boxes_of r)
              (split_ws (or_default `"No summary available." (summary r)))
              (VStr (or_default `"" (fun_fact r)))))
          :: files w)
       (denied w) (screen w) (kickoffs w)).
Proof.
  intros Hw. unfold record_dict.
  rewrite (@create_infographic_pdf_layout repr limit (record_fields r)
             filename (VList (boxes_of r)) (boxes_of r)
             (split_ws (or_default `"No summary available." (summary r))) w).
  - rewrite record_topic, record_fun_fact.
    destruct (topic r), (fun_fact r); reflexivity.
  - rewrite record_stats. unfold boxes_of. destruct (stats r); reflexivity.
  - reflexivity.
  - apply boxes_of_dicts.
  - rewrite record_summary. destruct (summary r); reflexivity.
  - exact Hw.
Qed.

End Records.

(* ================================================================== *)
(** * The path of the saved file *)
(* ================================================================== *)

Section Paths.

Variable repr : value -> str.

Lemma stat_box_filename bw by_ c x c' :
  stat_box repr bw by_ c x = Ok c' -> c_filename c' = c_filename c.
Proof.
  destruct x as [i stat]. unfold stat_box.
  destruct stat; cbn [get bind]; try discriminate.
  intros E. injection E as <-. reflexivity.
Qed.

Lemma for_in_filename bw by_ l : forall c c',
  for_in l (stat_box repr bw by_) c = Ok c' -> c_filename c' = c_filename c.
Proof.
  induction l as [|x l IH]; intros c c' E; simpl in E.
  - injection E as <-. reflexivity.
  - destruct (stat_box repr bw by_ c x) as [c1|e] eqn:E1; simpl in E;
      [|discriminate].
    apply IH in E. apply stat_box_filename in E1. congruence.
Qed.

(** The canvas that comes out of the drawing is the one for [filename]. *)
Lemma draw_page_filename limit data filename c :
  draw_page repr limit data filename = Ok c -> c_filename c = filename.
Proof.
  unfold draw_page. destruct data; cbn [get bind]; try discriminate.
  destruct (slice_to 3 _) as [first3|]; cbn [bind]; [|discriminate].
  destruct (iterate first3) as [boxes|]; cbn [bind]; [|discriminate].
  destruct (for_in _ _ _) as [c1|] eqn:E1; cbn [bind]; [|discriminate].
  destruct (method_split _) as [words|]; cbn [bind]; [|discriminate].
  intros E. injection E as <-.
  apply for_in_filename in E1. exact E1.
Qed.

(** The renderer, case by case. *)
Lemma create_infographic_pdf_cases limit data filename w :
  create_infographic_pdf_at repr limit data filename w
  = match draw_page repr limit data filename with
    | Raise e => (Raise e, w)
    | Ok c =>
        match denied w filename with
        | Some msg => (Raise (Exn OSError msg), w)
        | None =>
            (Ok filename,
             mkWorld (environ w)
                     ((filename, mkDocument (c_pagesize c) (c_code c))
                        :: files w)
                     (denied w) (screen w) (kickoffs w))
        end
    end.
Proof.
  unfold create_infographic_pdf_at, io_bind, lift, save, io_ret.
  destruct (draw_page repr limit data filename) as [c|e] eqn:E;
    [|reflexivity].
  rewrite (draw_page_filename _ _ _ _ E).
  destruct (denied w filename); reflexivity.
Qed.

End Paths.

(* ================================================================== *)
(** * Finding and splitting *)
(* ================================================================== *)

Lemma startswith_app_r p : forall s t,
  startswith p s = true -> startswith p (s ++ t) = true.
Proof.
  induction p as [|a p IH]; intros s t H; [reflexivity|].
  destruct s as [|b s]; simpl in *; [discriminate|].
  apply andb_prop in H. destruct H as [H1 H2].
  rewrite H1. simpl. now apply IH.
Qed.

Lemma startswith_length p : forall s,
  startswith p s = true -> (length p <= length s)%nat.
Proof.
  induction p as [|a p IH]; intros s H; simpl; [lia|].
  destruct s as [|b s]; simpl in *; [discriminate|].
  apply andb_prop in H. destruct H as [_ H]. apply IH in H. lia.
Qed.

Lemma startswith_firstn p : forall s n,
  startswith p s = true -> (length p <= n)%nat ->
  startswith p (firstn n s) = true.
Proof.
  induction p as [|a p IH]; intros s n H Hn; [reflexivity|].
  destruct s as [|b s]; simpl in H; [discriminate|].
  destruct n as [|n]; simpl in Hn; [lia|].
  apply andb_prop in H. destruct H as [H1 H2].
  simpl. rewrite H1. simpl. apply IH; [assumption|lia].
Qed.

Lemma startswith_split p : forall s,
  startswith p s = true -> s = p ++ skipn (length p) s.
Proof.
  induction p as [|a p IH]; intros s H; [reflexivity|].
  destruct s as [|b s]; simpl in H; [discriminate|].
  apply andb_prop in H. destruct H as [H1 H2].
  apply N.eqb_eq in H1. subst b. simpl. f_equal. now apply IH.
Qed.

(** A prefix of the pattern is found wherever the pattern is. *)
Lemma startswith_shorter p q : forall s,
  startswith (p ++ q) s = true -> startswith p s = true.
Proof.
  induction p as [|a p IH]; intros s H; [reflexivity|].
  destruct s as [|b s]; simpl in *; [discriminate|].
  apply andb_prop in H. destruct H as [H1 H2].
  rewrite H1. simpl. now apply IH.
Qed.

Lemma find_cons sep c s :
  find sep (c :: s)
  = if startswith sep (c :: s) then Some 0%nat else option_map S (find sep s).
Proof. reflexivity. Qed.

(** [find] returns the first place where the pattern starts. *)
Lemma find_Some sep : forall s i,
  find sep s = Some i ->
  startswith sep (skipn i s) = true
  /\ forall j, (j < i)%nat -> startswith sep (skipn j s) = false.
Proof.
  induction s as [|c s IH]; intros i H.
  - simpl in H. destruct (startswith sep []) eqn:E; [|discriminate].
    injection H as <-. split; [exact E|]. intros j Hj. lia.
  - rewrite find_cons in H.
    destruct (startswith sep (c :: s)) eqn:E.
    + injection H as <-. split; [exact E|]. intros j Hj. lia.
    + destruct (find sep s) as [i'|] eqn:F; [|discriminate].
      injection H as <-. destruct (IH i' eq_refl) as [H1 H2].
      split; [exact H1|].
      intros [|j] Hj; [exact E|]. apply H2. lia.
Qed.

Lemma find_None sep : forall s j,
  find sep s = None -> startswith sep (skipn j s) = false.
Proof.
  induction s as [|c s IH]; intros j H.
  - simpl in H. destruct (startswith sep []) eqn:E; [discriminate|].
    destruct j; exact E.
  - rewrite find_cons in H.
    destruct (startswith sep (c :: s)) eqn:E; [discriminate|].
    destruct (find sep s) eqn:F; [discriminate|].
    destruct j as [|j]; [exact E|]. simpl. now apply IH.
Qed.

Lemma find_first sep : forall s i,
  startswith sep (skipn i s) = true ->
  (forall j, (j < i)%nat -> startswith sep (skipn j s) = false) ->
  find sep s = Some i.
Proof.
  induction s as [|c s IH]; intros i H Hmin.
  - destruct i as [|i].
    + simpl in *. now rewrite H.
    + simpl in H. specialize (Hmin 0%nat ltac:(lia)). simpl in Hmin.
      congruence.
  - rewrite find_cons. destruct i as [|i].
    + simpl in H. now rewrite H.
    + pose proof (Hmin 0%nat ltac:(lia)) as H0. simpl in H0. rewrite H0.
      rewrite (IH i); [reflexivity|exact H|].
      intros j Hj. apply (Hmin (S j)). lia.
Qed.

Lemma find_nil_text sep : sep <> [] -> find sep [] = None.
Proof. destruct sep; [contradiction|reflexivity]. Qed.

(** What is found lies inside the text. *)
Lemma find_bound sep s i :
  sep <> [] -> find sep s = Some i -> (i + length sep <= length s)%nat.
Proof.
  intros Hsep H. apply find_Some in H. destruct H as [H _].
  pose proof (startswith_length _ _ H) as L.
  assert (0 < length sep)%nat by (destruct sep; [contradiction|simpl; lia]).
  rewrite length_skipn in L. lia.
Qed.

(** An occurrence inside a prefix is an occurrence in the text. *)
Lemma startswith_in_prefix sep s q j :
  startswith sep (skipn j (firstn q s)) = true ->
  startswith sep (skipn j s) = true.
Proof.
  intros H. rewrite <- (firstn_skipn q s) at 1.
  rewrite skipn_app. now apply startswith_app_r.
Qed.

(** An occurrence that ends before the cut is an occurrence in the prefix. *)
Lemma startswith_within_prefix sep s q j :
  startswith sep (skipn j s) = true ->
  (j + length sep <= q)%nat ->
  startswith sep (skipn j (firstn q s)) = true.
Proof.
  intros H L. rewrite skipn_firstn_comm.
  apply startswith_firstn; [exact H|lia].
Qed.

(** Before its first occurrence the pattern does not occur. *)
Lemma find_firstn_None sep s p :
  sep <> [] -> find sep s = Some p -> find sep (firstn p s) = None.
Proof.
  intros Hsep H. apply find_Some in H. destruct H as [_ Hmin].
  destruct (find sep (firstn p s)) as [j|] eqn:F; [|reflexivity].
  apply find_Some in F. destruct F as [Hj _].
  pose proof (startswith_length _ _ Hj) as L.
  rewrite length_skipn, length_firstn in L.
  assert (0 < length sep)%nat by (destruct sep; [contradiction|simpl; lia]).
  apply startswith_in_prefix in Hj.
  rewrite Hmin in Hj by lia. discriminate.
Qed.

Lemma upto_idem sep s : sep <> [] -> upto sep (upto sep s) = upto sep s.
Proof.
  intros Hsep. unfold upto at 2 3. destruct (find sep s) as [p|] eqn:F.
  - unfold upto. now rewrite (find_firstn_None _ _ _ Hsep F).
  - unfold upto. now rewrite F.
Qed.

(** The first piece of a split. *)
Lemma split_upto_first sep : forall fuel s,
  sep <> [] ->
  (length s <= fuel)%nat ->
  nth_error (split_upto fuel sep s) 0 = Some (upto sep s).
Proof.
  intros fuel s Hsep L. unfold upto. destruct fuel as [|fuel]; simpl.
  - destruct s; [|simpl in L; lia]. now rewrite find_nil_text.
  - destruct (find sep s); reflexivity.
Qed.

Lemma split_item0 sep s : sep <> [] -> item (split sep s) 0 = Ok (upto sep s).
Proof.
  intros Hsep. unfold item, split.
  now rewrite split_upto_first by (assumption || unfold len; lia).
Qed.

(** The second piece of a split, when the separator occurs. *)
Lemma split_item1 sep s i :
  sep <> [] ->
  find sep s = Some i ->
  item (split sep s) 1 = Ok (upto sep (skipn (i + len sep) s)).
Proof.
  intros Hsep F. pose proof (find_bound _ _ _ Hsep F) as L.
  assert (0 < length sep)%nat by (destruct sep; [contradiction|simpl; lia]).
  unfold item, split, len in *.
  destruct (length s) as [|n] eqn:E; [lia|].
  simpl split_upto. rewrite F.
  match goal with
  | |- context [nth_error (?x :: ?l) 1] =>
      change (nth_error (x :: l) 1) with (nth_error l 0)
  end.
  rewrite split_upto_first; [reflexivity|assumption|].
  rewrite length_skipn. unfold len. lia.
Qed.

Lemma fence_not_empty : fence <> [].
Proof. discriminate. Qed.

Lemma fence_json_not_empty : fence_json <> [].
Proof. discriminate. Qed.

(** The clean-up never raises; this is the text it hands on. *)
Lemma clean_json_cases crew_output :
  clean_json crew_output
  = Ok (let raw := strip crew_output in
        match find fence_json raw with
        | Some i =>
            upto fence (upto fence_json (skipn (i + len fence_json) raw))
        | None =>
            match find fence raw with
            | Some i => upto fence (skipn (i + len fence) raw)
            | None => raw
            end
        end).
Proof.
  unfold clean_json, contains. cbv zeta.
  destruct (find fence_json (strip crew_output)) as [i|] eqn:F.
  - rewrite (split_item1 _ _ _ fence_json_not_empty F). cbn [bind].
    now rewrite (split_item0 _ _ fence_not_empty).
  - destruct (find fence (strip crew_output)) as [i|] eqn:G; [|reflexivity].
    rewrite (split_item1 _ _ _ fence_not_empty G). cbn [bind].
    rewrite (split_item0 _ _ fence_not_empty), (upto_idem _ _ fence_not_empty).
    reflexivity.
Qed.

Lemma startswith_cons a p s :
  startswith (a :: p) s = true ->
  exists s', s = a :: s' /\ startswith p s' = true.
Proof.
  destruct s as [|b s]; simpl; [discriminate|].
  intros H. apply andb_prop in H. destruct H as [H1 H2].
  apply N.eqb_eq in H1. subst b. eauto.
Qed.

(** Two fences that overlap make a run of four backticks. *)
Lemma fences_overlap x :
  startswith fence x = true ->
  startswith fence (skipn 1 x) = true \/ startswith fence (skipn 2 x) = true ->
  startswith four_backticks x = true.
Proof.
  change fence with [96%N; 96%N; 96%N].
  change four_backticks with [96%N; 96%N; 96%N; 96%N].
  intros H H'.
  apply startswith_cons in H. destruct H as (x1 & -> & H).
  apply startswith_cons in H. destruct H as (x2 & -> & H).
  apply startswith_cons in H. destruct H as (x3 & -> & _).
  cbn [skipn] in H'. destruct H' as [H'|H'].
  - apply startswith_cons in H'. destruct H' as (y1 & E1 & H').
    apply startswith_cons in H'. destruct H' as (y2 & E2 & H').
    apply startswith_cons in H'. destruct H' as (y3 & E3 & _).
    injection E1 as <-. injection E2 as ->. subst y2. reflexivity.
  - apply startswith_cons in H'. destruct H' as (y1 & E1 & H').
    apply startswith_cons in H'. destruct H' as (y2 & E2 & _).
    injection E1 as ->. subst y1. reflexivity.
Qed.

(** Without a run of four backticks, cutting at the next [```json] first
    does not change where the next fence is. *)
Lemma upto_fence_json raw k :
  find four_backticks raw = None ->
  upto fence (upto fence_json (skipn k raw)) = upto fence (skipn k raw).
Proof.
  intros H4. set (r := skipn k raw).
  unfold upto at 2. destruct (find fence_json r) as [q|] eqn:Fq;
    [|reflexivity].
  destruct (find_Some _ _ _ Fq) as [Hq _].
  assert (Hfq : startswith fence (skipn q r) = true).
  { apply startswith_shorter with (q := `"json"). exact Hq. }
  unfold upto at 2. destruct (find fence r) as [p|] eqn:Fp.
  2: { rewrite (find_None fence r q Fp) in Hfq. discriminate. }
  destruct (find_Some _ _ _ Fp) as [Hp Hpmin].
  assert (Hpq : (p <= q)%nat).
  { destruct (le_lt_dec p q) as [L|L]; [exact L|].
    rewrite Hpmin in Hfq by exact L. discriminate. }
  destruct (Nat.eq_dec p q) as [->|Hne].
  - unfold upto. now rewrite (find_firstn_None _ _ _ fence_not_empty Fp).
  - assert (Hfar : (p + 3 <= q)%nat).
    { destruct (le_lt_dec (p + 3) q) as [L|L]; [exact L|]. exfalso.
      assert (H : startswith four_backticks (skipn p r) = true).
      { apply fences_overlap; [exact Hp|]. rewrite !skipn_skipn.
        destruct (Nat.eq_dec q (1 + p)) as [->|Hq1]; [now left|right].
        replace (2 + p)%nat with q by lia. exact Hfq. }
      unfold r in H. rewrite skipn_skipn in H.
      rewrite (find_None _ _ _ H4) in H. discriminate. }
    unfold upto. rewrite (find_first fence (firstn q r) p).
    + rewrite firstn_firstn. now replace (Nat.min p q) with p by lia.
    + apply startswith_within_prefix; [exact Hp|].
      change (length fence) with 3%nat. exact Hfar.
    + intros j Hj.
      destruct (startswith fence (skipn j (firstn q r))) eqn:E;
        [|reflexivity].
      apply startswith_in_prefix in E. rewrite Hpmin in E by exact Hj.
      discriminate.
Qed.

(** The clean-up keeps the fenced content. *)
Lemma clean_json_fenced crew_output :
  find four_backticks (strip crew_output) = None ->
  clean_json crew_output = Ok (fenced_content (strip crew_output)).
Proof.
  intros H4. rewrite clean_json_cases. cbv zeta. unfold fenced_content.
  destruct (find fence_json (strip crew_output)); [|reflexivity].
  unfold upto_fence. now rewrite upto_fence_json.
Qed.

(* ================================================================== *)
(** * The front end, step by step *)
(* ================================================================== *)

Section Frontend.

Variable repr : value -> str.
Variable json_loads : str -> result value.
Variable crew_kickoff : str -> str -> result str.

(** [main] draws the form, then looks at the button, the key, the topic. *)
Lemma main_cases v w :
  main repr json_loads crew_kickoff v w
  = if pressed v then
      if py_not (api_key_of v w) then
        show (Error `"Please enter your API Key.") (with_form w)
      else if py_not (typed_topic v) then
        show (Warning `"Please enter a topic.") (with_form w)
      else
        (show (Spinner (129302%N :: `" Researching & Designing...")) ;;;
         try_except
           (generate repr json_loads crew_kickoff (typed_topic v)
                     (api_key_of v w))
           (report)) (with_form w)
    else (Ok tt, with_form w).
Proof.
  unfold main, with_form, api_key_of, form.
  cbv beta iota zeta delta
    [io_bind show getenv sidebar_text_input text_input button io_ret
     environ files denied screen kickoffs].
  rewrite <- !app_assoc. cbn [app].
  destruct (pressed v); [|reflexivity].
  destruct (py_not _); [rewrite <- ?app_assoc; reflexivity|].
  destruct (py_not _); rewrite <- ?app_assoc; reflexivity.
Qed.

(** The body of the [try] when the upstream text does not parse: the key is
    exported, the crew has run, and the exception of [json.loads] comes
    out. *)
Lemma generate_parse_error topic api_key output e w :
  crew_kickoff topic api_key = Ok output ->
  (forall raw, clean_json output = Ok raw -> json_loads raw = Raise e) ->
  generate repr json_loads crew_kickoff topic api_key w
  = (Raise e,
     mkWorld ((`"GOOGLE_API_KEY", api_key) :: environ w) (files w) (denied w)
             (screen w) (kickoffs w ++ [(topic, api_key)])).
Proof.
  intros Hcrew Hparse.
  unfold generate, run_crew_research, io_bind, setenv, kickoff, lift.
  cbn [environ files denied screen kickoffs]. rewrite Hcrew.
  rewrite clean_json_cases.
  rewrite (Hparse _ (clean_json_cases output)). reflexivity.
Qed.

End Frontend.

(* ================================================================== *)
(** * Properties of the renderer *)
(* ================================================================== *)

Lemma summary_lines_spec limit s :
  summary_lines limit s = wrap_spec limit [] (split_ws s).
Proof.
  unfold summary_lines, summary_text.
  now rewrite wrap_into_spec, write_lines_lines.
Qed.

Lemma record_saved repr r filename w :
  denied w filename = None ->
  exists w',
    create_infographic_pdf repr (record_dict r) filename w = (Ok filename, w')
    /\ lookup filename (files w') = Some (record_page repr r)
    /\ environ w' = environ w /\ screen w' = screen w
    /\ kickoffs w' = kickoffs w.
Proof.
  intros Hw. unfold create_infographic_pdf.
  rewrite (record_rendered repr wrap_limit r filename w Hw).
  eexists. split; [reflexivity|]. cbn [files environ screen kickoffs].
  rewrite lookup_head. auto.
Qed.

(** C1. For every summary the lines the renderer writes are those of the
    specification's procedure: split on whitespace, append word by word to
    a buffer, flush the buffer as a line whenever its space-joined length
    exceeds the threshold (80), flush what is left as the last line. For
    "A B C D E F" and a small threshold each break falls right after the
    word that made the joined length exceed the threshold; in general a
    flushed line is longer than the threshold and was not before its last
    word came, and nothing but the character count decides. *)
Theorem word_wrap_follows_procedure :
  wrap_limit = 80%nat
  /\ (forall limit s t,
         t_lines (wrap_into limit (split_ws s) t)
         = t_lines t ++ wrap_spec limit [] (split_ws s))
  /\ (forall repr r filename w,
         denied w filename = None ->
         exists doc w',
           create_infographic_pdf repr (record_dict r) filename w
             = (Ok filename, w')
           /\ lookup filename (files w') = Some doc
           /\ text_lines (doc_code doc)
              = wrap_spec 80 []
                  (split_ws (or_default `"No summary available."
                                        (summary r))))
  /\ summary_lines 2 `"A B C D E F" = [`"A B"; `"C D"; `"E F"; `""]
  /\ summary_lines 3 `"A B C D E F" = [`"A B C"; `"D E F"; `""]
  /\ (forall limit s,
         exists groups last,
           summary_lines limit s
             = map (join `" ") groups ++ [join `" " last]
           /\ split_ws s = concat groups ++ last
           /\ Forall (breaks_at_overflow limit) groups
           /\ (len (join `" " last) <= limit)%nat).
Proof.
  split; [reflexivity|].
  split.
  { intros limit s t. now rewrite wrap_into_spec, write_lines_lines. }
  split.
  { intros repr r filename w Hw.
    destruct (record_saved repr r filename w Hw) as (w' & E & L & _).
    exists (record_page repr r), w'. repeat split; try assumption.
    apply page_text_lines. }
  split; [reflexivity|].
  split; [reflexivity|].
  intros limit s. rewrite summary_lines_spec.
  destruct (wrap_spec_breaks limit (split_ws s) []) as (g & l & H);
    [simpl; lia|].
  exists g, l. exact H.
Qed.

Lemma word_wrap_follows_procedure_witness :
  denied sample_world `"out.pdf" = None
  /\ exists doc w',
       create_infographic_pdf sample_repr
         (record_dict (mkRecord None (Some `"A B C D E F") None None))
         `"out.pdf" sample_world = (Ok `"out.pdf", w')
       /\ lookup `"out.pdf" (files w') = Some doc
       /\ text_lines (doc_code doc)
          = wrap_spec 80 []
              (split_ws (or_default `"No summary available."
                                    (Some `"A B C D E F"))).
Proof.
  split; [reflexivity|].
  apply (proj1 (proj2 (proj2 word_wrap_follows_procedure))).
  reflexivity.
Defined.

(** C6. Wrapping is idempotent on re-wrap: join the lines of a wrapped
    summary with line breaks (or with spaces), wrap again with the same
    threshold, and the same lines come out. *)
Theorem word_wrap_idempotent :
  forall limit s,
    summary_lines limit (join [newline] (summary_lines limit s))
      = summary_lines limit s
    /\ summary_lines limit (join [space] (summary_lines limit s))
       = summary_lines limit s.
Proof.
  intros limit s.
  assert (H : forall c, isspace c = true ->
            summary_lines limit (join [c] (summary_lines limit s))
            = summary_lines limit s).
  { intros c Hc. rewrite !summary_lines_spec.
    destruct (wrap_spec_groups limit (split_ws s) []) as (groups & E & C).
    rewrite E at 1. simpl in C.
    change (`" ") with [space].
    rewrite split_ws_lines; [now rewrite C|exact Hc|].
    rewrite C. apply split_ws_words. }
  split; apply H; reflexivity.
Qed.

(** C10 (amended). The last flush is unconditional, so at least one summary
    line is always written. A summary without words (empty, or whitespace
    only) gives exactly one empty line; a missing summary gives exactly one
    line, the placeholder. When the last word itself makes the buffer
    exceed the threshold and is flushed inside the loop, one more, empty,
    line follows it, and the "Did You Know?" heading sits one leading (14
    points) lower than half an inch below the last line that has words. *)
Theorem final_flush_unconditional :
  forall repr r filename w,
    denied w filename = None ->
    exists doc w',
      create_infographic_pdf repr (record_dict r) filename w
        = (Ok filename, w')
      /\ lookup filename (files w') = Some doc
      /\ text_lines (doc_code doc) <> []
      /\ (forall s, summary r = Some s -> split_ws s = [] ->
            text_lines (doc_code doc) = [`""])
      /\ (summary r = None ->
            text_lines (doc_code doc) = [`"No summary available."])
      /\ (forall init last,
            split_ws (or_default `"No summary available." (summary r))
              = init ++ [last] ->
            (wrap_limit
             < len (join `" " (pending wrap_limit [] init ++ [last])))%nat ->
            text_lines (doc_code doc)
              = flushed wrap_limit [] init
                ++ [join `" " (pending wrap_limit [] init ++ [last]); `""]
            /\ exists y,
                 height_of `"Did You Know?" (doc_code doc) = Some y
                 /\ y == (summary_y
                          - inject_Z (Z.of_nat
                              (S (length (flushed wrap_limit [] init)))) * 14
                          - 0.5 * inch)
                         - 14).
Proof.
  intros repr r filename w Hw.
  destruct (record_saved repr r filename w Hw) as (w' & E & L & _).
  exists (record_page repr r), w'.
  split; [exact E|]. split; [exact L|].
  unfold record_page. cbn [doc_code]. rewrite page_text_lines.
  split.
  { rewrite wrap_spec_flushed. intro H. apply app_eq_nil in H.
    destruct H as [_ H]. discriminate. }
  split.
  { intros s Hs Hwords. rewrite Hs. cbn [or_default]. now rewrite Hwords. }
  split.
  { intros Hs. rewrite Hs. reflexivity. }
  intros init last Hwords Hover.
  apply Nat.ltb_lt in Hover.
  assert (Hlines :
            wrap_spec wrap_limit []
              (split_ws (or_default `"No summary available." (summary r)))
            = flushed wrap_limit [] init
              ++ [join `" " (pending wrap_limit [] init ++ [last]); `""]).
  { rewrite Hwords, wrap_spec_flushed, flushed_snoc, pending_snoc, Hover.
    rewrite <- app_assoc. reflexivity. }
  split; [exact Hlines|].
  destruct (page_heading_height repr wrap_limit
              (VStr (or_default `"Unknown Topic" (topic r))) (boxes_of r)
              (split_ws (or_default `"No summary available." (summary r)))
              (VStr (or_default `"" (fun_fact r)))) as (y & Hy & Ey).
  exists y. split; [exact Hy|].
  rewrite Ey, Hlines, length_app. cbn [length].
  replace (length (flushed wrap_limit [] init) + 2)%nat
    with (S (S (length (flushed wrap_limit [] init)))) by lia.
  rewrite (Nat2Z.inj_succ (S _)), <- Z.add_1_r, inject_Z_plus.
  change (inject_Z 1) with 1. ring.
Qed.

Lemma final_flush_unconditional_witness :
  denied sample_world default_filename = None
  /\ exists doc w',
       create_infographic_pdf sample_repr
         (record_dict (mkRecord None (Some (repeat 97%N 81)) None None))
         default_filename sample_world = (Ok default_filename, w')
       /\ lookup default_filename (files w') = Some doc
       /\ text_lines (doc_code doc) = [repeat 97%N 81; `""]
       /\ exists y,
            height_of `"Did You Know?" (doc_code doc) = Some y
            /\ y == (summary_y - 1 * 14 - 0.5 * inch) - 14.
Proof.
  split; [reflexivity|].
  destruct (final_flush_unconditional sample_repr
              (mkRecord None (Some (repeat 97%N 81)) None None)
              default_filename sample_world eq_refl)
    as (doc & w' & E & L & _ & _ & _ & T).
  destruct (T [] (repeat 97%N 81) eq_refl (Nat.lt_succ_diag_r 80))
    as (Hlines & y & Hy & Ey).
  exists doc, w'. split; [exact E|]. split; [exact L|].
  split; [exact Hlines|]. exists y. split; [exact Hy|exact Ey].
Defined.

(** The case of C10 where the last word is flushed inside the loop: a single
    word of 81 characters. *)
Example long_last_word :
  summary_lines wrap_limit (repeat 97%N 81) = [repeat 97%N 81; `""]
  /\ (wrap_limit
      < len (join `" " (pending wrap_limit [] [] ++ [repeat 97%N 81])))%nat.
Proof. split; [reflexivity|]. vm_compute. lia. Qed.

(** C10, as first stated, fails for a record without a summary: the one
    line written is the placeholder, not an empty line. *)
Lemma missing_summary_line_not_empty :
  exists doc w',
    create_infographic_pdf sample_repr (VDict []) default_filename
                           sample_world = (Ok default_filename, w')
    /\ lookup default_filename (files w') = Some doc
    /\ text_lines (doc_code doc) = [`"No summary available."]
    /\ text_lines (doc_code doc) <> [`""].
Proof.
  destruct (record_saved sample_repr (mkRecord None None None None)
              default_filename sample_world eq_refl) as (w' & E & L & _).
  exists (record_page sample_repr (mkRecord None None None None)), w'.
  split; [exact E|]. split; [exact L|].
  unfold record_page. cbn [doc_code]. rewrite page_text_lines.
  split; [reflexivity|discriminate].
Qed.

(** C5. A record renders whatever is missing or empty: a missing topic is
    shown as "Unknown Topic", a missing summary as "No summary available.",
    a missing fun fact as nothing after the bullet, missing stats as no
    box; the page is saved at the output path and the path is returned. So
    does the record with every field missing, and the one with every field
    empty. *)
Theorem missing_fields_render :
  forall repr r filename w,
    denied w filename = None ->
    exists doc w',
      create_infographic_pdf repr (record_dict r) filename w
        = (Ok filename, w')
      /\ lookup filename (files w') = Some doc
      /\ doc_code doc
         = page_code repr wrap_limit
             (VStr (or_default `"Unknown Topic" (topic r)))
             (firstn 3 (map stat_dict (or_default [] (stats r))))
             (split_ws (or_default `"No summary available." (summary r)))
             (VStr (or_default `"" (fun_fact r)))
      /\ hd_error (centred_strings (doc_code doc))
         = Some (fst A4 / 2, snd A4 - 1 * inch,
                 `"Infographic: " ++ or_default `"Unknown Topic" (topic r))
      /\ text_lines (doc_code doc)
         = summary_lines wrap_limit
             (or_default `"No summary available." (summary r))
      /\ (exists x y,
             last (plain_strings (doc_code doc)) (0, 0, [])
             = (x, y, bullet :: `" " ++ or_default `"" (fun_fact r)))
      /\ length (round_rects (doc_code doc))
         = Nat.min 3 (length (or_default [] (stats r))).
Proof.
  intros repr r filename w Hw.
  destruct (record_saved repr r filename w Hw) as (w' & E & L & _).
  exists (record_page repr r), w'.
  split; [exact E|]. split; [exact L|].
  unfold record_page. cbn [doc_code].
  split; [reflexivity|].
  split.
  { rewrite page_centred by apply boxes_of_dicts. reflexivity. }
  split.
  { rewrite page_text_lines, summary_lines_spec. reflexivity. }
  split.
  { rewrite page_plain_strings. cbn [last]. eauto. }
  rewrite page_round_rects by apply boxes_of_dicts.
  rewrite length_map, length_seq. apply boxes_of_length.
Qed.

Lemma missing_fields_render_witness :
  denied sample_world default_filename = None
  /\ exists doc w',
       create_infographic_pdf sample_repr
         (record_dict (mkRecord None None None None))
         default_filename sample_world = (Ok default_filename, w')
       /\ lookup default_filename (files w') = Some doc
       /\ hd_error (centred_strings (doc_code doc))
          = Some (fst A4 / 2, snd A4 - 1 * inch,
                  `"Infographic: Unknown Topic")
       /\ text_lines (doc_code doc) = [`"No summary available."]
       /\ length (round_rects (doc_code doc)) = 0%nat.
Proof.
  split; [reflexivity|].
  destruct (missing_fields_render sample_repr (mkRecord None None None None)
              default_filename sample_world eq_refl)
    as (doc & w' & E & L & _ & T & S & _ & B).
  exists doc, w'. repeat split; assumption.
Defined.

Lemma slot_x_step (i : nat) :
  slot_x box_width (S i) - slot_x box_width i == box_width + 0.2 * inch.
Proof.
  unfold slot_x. rewrite Nat2Z.inj_succ, <- Z.add_1_r, inject_Z_plus.
  change (inject_Z 1) with 1. ring.
Qed.

(** C2. Whatever the length of the stats, the renderer draws a box for each
    of the first three and for no other: min(3, len(stats)) boxes, none for
    a missing stat. Box [i] goes into slot [i]: all slots have the same
    size and the same height on the page, each starts one box width plus
    0.2 inch to the right of the one before, so that the place depends on
    the index alone. The value and the label of stat [i], in string form,
    are centred on the middle of slot [i], the value above the label,
    both inside the box. *)
Theorem stat_boxes_drawn :
  forall repr fields filename w all_stats words,
    dict_get fields `"stats" (VList []) = VList all_stats ->
    forallb is_dict (firstn 3 all_stats) = true ->
    method_split (dict_get fields `"summary" (VStr `"No summary available."))
      = Ok words ->
    denied w filename = None ->
    exists doc w',
      create_infographic_pdf repr (VDict fields) filename w
        = (Ok filename, w')
      /\ lookup filename (files w') = Some doc
      /\ length (round_rects (doc_code doc))
         = Nat.min 3 (length all_stats)
      /\ round_rects (doc_code doc)
         = map slot (seq 0 (Nat.min 3 (length all_stats)))
      /\ tl (centred_strings (doc_code doc))
         = flat_map (fun i_stat : nat * value =>
                [ (slot_x box_width (fst i_stat) + box_width / 2,
                   box_y + 0.7 * inch,
                   py_str repr (stat_field `"value" (snd i_stat)));
                  (slot_x box_width (fst i_stat) + box_width / 2,
                   box_y + 0.4 * inch,
                   py_str repr (stat_field `"label" (snd i_stat))) ])
             (enumerate (firstn 3 all_stats))
      /\ (forall i, slot i = (slot_x box_width i, box_y, box_width, 1.2 * inch))
      /\ (forall i, slot_x box_width (S i) - slot_x box_width i
                    == box_width + 0.2 * inch)
      /\ (forall i, (slot_x box_width i + box_width / 2) - slot_x box_width i
                    == (slot_x box_width i + box_width)
                       - (slot_x box_width i + box_width / 2))
      /\ box_y < box_y + 0.4 * inch
      /\ box_y + 0.4 * inch < box_y + 0.7 * inch
      /\ box_y + 0.7 * inch < box_y + 1.2 * inch.
Proof.
  intros repr fields filename w all_stats words Hstats Hdict Hsplit Hw.
  exists (mkDocument A4
            (page_code repr wrap_limit
               (dict_get fields `"topic" (VStr `"Unknown Topic"))
               (firstn 3 all_stats) words
               (dict_get fields `"fun_fact" (VStr `"")))).
  eexists. split.
  { unfold create_infographic_pdf.
    apply (create_infographic_pdf_layout repr wrap_limit fields filename
             (VList (firstn 3 all_stats)) (firstn 3 all_stats) words w);
      try assumption; [|reflexivity].
    rewrite Hstats. reflexivity. }
  cbn [files doc_code]. split; [apply lookup_head|].
  rewrite page_round_rects by exact Hdict.
  rewrite page_centred by exact Hdict.
  rewrite length_map, length_seq, length_firstn.
  split; [reflexivity|]. split; [reflexivity|]. split; [reflexivity|].
  split; [reflexivity|]. split; [exact slot_x_step|].
  split; [intros i; field|].
  repeat split; reflexivity.
Qed.

Lemma stat_boxes_drawn_witness :
  dict_get sample_fields `"stats" (VList []) = VList sample_stats
  /\ forallb is_dict (firstn 3 sample_stats) = true
  /\ method_split (dict_get sample_fields `"summary"
                            (VStr `"No summary available."))
     = Ok [`"No"; `"summary"; `"available."]
  /\ denied sample_world default_filename = None
  /\ exists doc w',
       create_infographic_pdf sample_repr (VDict sample_fields)
                              default_filename sample_world
         = (Ok default_filename, w')
       /\ lookup default_filename (files w') = Some doc
       /\ length (round_rects (doc_code doc)) = 3%nat.
Proof.
  split; [reflexivity|]. split; [reflexivity|]. split; [reflexivity|].
  split; [reflexivity|].
  destruct (stat_boxes_drawn sample_repr sample_fields default_filename
              sample_world sample_stats [`"No"; `"summary"; `"available."]
              eq_refl eq_refl eq_refl eq_refl)
    as (doc & w' & E & L & N & _).
  exists doc, w'. auto.
Defined.

(** C3. Not every text value of the record is turned into a string before
    it is used: the summary is split as it is. On a record whose summary is
    a number the renderer raises [AttributeError], whatever the output
    path; a number as topic, as fun fact or as the value of a stat is
    drawn in string form. *)
Theorem summary_not_coerced :
  (forall repr filename w,
      create_infographic_pdf repr
        (VDict [(`"topic", VStr `"Mars"); (`"summary", VInt 42)]) filename w
      = (Raise (Exn AttributeError `"'int' object has no attribute 'split'"),
         w))
  /\ fst (create_infographic_pdf sample_repr
            (VDict [ (`"topic", VInt 42);
                     (`"summary", VStr `"Red planet");
                     (`"stats", VList [VDict [(`"value", VInt 1)]]);
                     (`"fun_fact", VNone) ])
            default_filename sample_world)
     = Ok default_filename.
Proof.
  split; [|reflexivity].
  intros repr filename w. unfold create_infographic_pdf.
  rewrite create_infographic_pdf_cases. reflexivity.
Qed.


(** The same record twice is the plain case. *)
Lemma same_record_refl data : same_record data data.
Proof.
  destruct data; cbn [same_record]; try reflexivity.
  repeat split.
Qed.



(* ================================================================== *)
(** * Properties of the caller *)
(* ================================================================== *)

Lemma find_split sep s i :
  find sep s = Some i ->
  s = firstn i s ++ sep ++ skipn (i + length sep) s.
Proof.
  intros F. apply find_Some in F. destruct F as [F _].
  apply startswith_split in F. rewrite skipn_skipn in F.
  rewrite <- (firstn_skipn i s) at 1. rewrite F at 1.
  now rewrite (Nat.add_comm i).
Qed.

(** Without a fence there is no [```json] marker either. *)
Lemma no_fence_no_json raw :
  find fence raw = None -> find fence_json raw = None.
Proof.
  intros H. destruct (find fence_json raw) as [i|] eqn:F; [|reflexivity].
  apply find_Some in F. destruct F as [F _].
  apply (startswith_shorter fence `"json") in F.
  rewrite (find_None _ _ i H) in F. discriminate.
Qed.

(** C4, as first stated, fails when a plain fenced block comes before a
    block marked [```json]: the content of the second block is parsed, and
    adding that block after the first changes what is parsed. *)
Lemma json_fence_preferred_over_first :
  clean_json `"```[1]``` ```json [2]```" = Ok `" [2]"
  /\ first_fence_pair (strip `"```[1]``` ```json [2]```") = `"[1]"
  /\ clean_json `"```[1]```" = Ok `"[1]"
  /\ clean_json `"```[1]``` ```json [2]```"
     <> Ok (first_fence_pair (strip `"```[1]``` ```json [2]```")).
Proof. repeat split; try reflexivity. discriminate. Qed.

(** C4 (amended). Before parsing, the caller strips the text of surrounding
    whitespace and keeps one fenced block: if a [```json] marker is present,
    what lies between the first such marker and the next fence after it,
    wherever other fenced blocks are; otherwise, if a fence is present, what
    lies between the first pair of fences; what is outside is ignored, and
    a block that is not closed runs to the end of the text. Without any
    fence the stripped text is parsed as it is. (The first part is for texts
    without a run of four backticks.) The clean-up never raises. *)
Theorem fenced_json_extracted :
  (forall output,
      find four_backticks (strip output) = None ->
      clean_json output = Ok (fenced_content (strip output)))
  /\ (forall output,
         contains fence_json (strip output) = false ->
         clean_json output = Ok (first_fence_pair (strip output)))
  /\ (forall output,
         contains fence (strip output) = false ->
         clean_json output = Ok (strip output))
  /\ (forall raw i p,
         find fence_json raw = Some i ->
         find fence (skipn (i + len fence_json) raw) = Some p ->
         raw = firstn i raw ++ fence_json ++ fenced_content raw ++ fence
               ++ skipn (p + len fence) (skipn (i + len fence_json) raw))
  /\ (forall raw i,
         find fence_json raw = Some i ->
         find fence (skipn (i + len fence_json) raw) = None ->
         raw = firstn i raw ++ fence_json ++ fenced_content raw)
  /\ (forall output, exists raw, clean_json output = Ok raw).
Proof.
  split; [exact clean_json_fenced|].
  split.
  { intros output H. unfold contains in H. rewrite clean_json_cases.
    cbv zeta. unfold first_fence_pair, upto_fence.
    destruct (find fence_json (strip output)); [discriminate|reflexivity]. }
  split.
  { intros output H. unfold contains in H. rewrite clean_json_cases.
    cbv zeta.
    destruct (find fence (strip output)) eqn:F; [discriminate|].
    now rewrite (no_fence_no_json _ F). }
  split.
  { intros raw i p Fi Fp. unfold fenced_content, upto_fence, upto.
    rewrite Fi, Fp. unfold len in *.
    rewrite <- (find_split _ _ _ Fp). exact (find_split _ _ _ Fi). }
  split.
  { intros raw i Fi Fp. unfold fenced_content, upto_fence, upto.
    rewrite Fi, Fp. unfold len in *. exact (find_split _ _ _ Fi). }
  intros output. rewrite clean_json_cases. eauto.
Qed.

Lemma fenced_json_extracted_witness :
  find four_backticks (strip `"```[1]``` ```json [2]```") = None
  /\ clean_json `"```[1]``` ```json [2]```"
     = Ok (fenced_content (strip `"```[1]``` ```json [2]```")).
Proof.
  split; [reflexivity|].
  apply (proj1 fenced_json_extracted). reflexivity.
Defined.

Lemma skipn_own_length {A} (l more : list A) :
  skipn (length l) (l ++ more) = more.
Proof. induction l; simpl; auto. Qed.

(** C9. With the button pressed and an empty credential the only thing that
    happens is that an error is shown: no upstream run, nothing parsed,
    nothing rendered or saved, the environment untouched, and this whatever
    the topic is. With a credential and an empty topic the only thing that
    happens is that a warning is shown. *)
Theorem missing_inputs_reported :
  forall repr json_loads crew_kickoff v w,
    pressed v = true ->
    (api_key_of v w = [] ->
       main repr json_loads crew_kickoff v w
       = (Ok tt,
          mkWorld (environ w) (files w) (denied w)
            (screen w
             ++ form (or_empty (lookup `"GOOGLE_API_KEY" (environ w)))
             ++ [Error `"Please enter your API Key."])
            (kickoffs w)))
    /\ (api_key_of v w <> [] -> typed_topic v = [] ->
          main repr json_loads crew_kickoff v w
          = (Ok tt,
             mkWorld (environ w) (files w) (denied w)
               (screen w
                ++ form (or_empty (lookup `"GOOGLE_API_KEY" (environ w)))
                ++ [Warning `"Please enter a topic."])
               (kickoffs w))).
Proof.
  intros repr json_loads crew_kickoff v w Hpressed.
  rewrite main_cases, Hpressed. split.
  - intros Hkey. rewrite Hkey. cbn [py_not]. unfold show, with_form.
    cbn [environ files denied screen kickoffs]. now rewrite <- app_assoc.
  - intros Hkey Htopic. rewrite Htopic.
    destruct (api_key_of v w); [contradiction|]. cbn [py_not].
    unfold show, with_form.
    cbn [environ files denied screen kickoffs]. now rewrite <- app_assoc.
Qed.

Lemma missing_inputs_reported_witness :
  pressed (mkVisitor None `"Mars" true) = true
  /\ api_key_of (mkVisitor None `"Mars" true) sample_world = []
  /\ main sample_repr sample_loads sample_crew (mkVisitor None `"Mars" true)
          sample_world
     = (Ok tt,
        mkWorld [] [] (denied sample_world)
                (form [] ++ [Error `"Please enter your API Key."]) []).
Proof.
  split; [reflexivity|]. split; [reflexivity|].
  apply (proj1 (missing_inputs_reported sample_repr sample_loads sample_crew
                  (mkVisitor None `"Mars" true) sample_world eq_refl)).
  reflexivity.
Defined.

(** C7. When the text kept from the upstream answer does not parse as JSON,
    with or without fences, exactly one error is shown (followed by the
    hint about the key), nothing of the record is shown, and no file is
    written. *)
Theorem parse_failure_reported :
  forall repr json_loads crew_kickoff v w output e,
    pressed v = true ->
    api_key_of v w <> [] ->
    typed_topic v <> [] ->
    crew_kickoff (typed_topic v) (api_key_of v w) = Ok output ->
    (forall raw, clean_json output = Ok raw -> json_loads raw = Raise e) ->
    exists w',
      main repr json_loads crew_kickoff v w = (Ok tt, w')
      /\ shown_since w w'
         = form (or_empty (lookup `"GOOGLE_API_KEY" (environ w)))
           ++ [ Spinner (129302%N :: `" Researching & Designing...");
                Error (`"Error: " ++ exn_message e);
                Warning key_hint ]
      /\ length (filter is_error (shown_since w w')) = 1%nat
      /\ filter is_result (shown_since w w') = []
      /\ files w' = files w
      /\ kickoffs w' = kickoffs w ++ [(typed_topic v, api_key_of v w)].
Proof.
  intros repr json_loads crew_kickoff v w output e
         Hpressed Hkey Htopic Hcrew Hparse.
  rewrite main_cases, Hpressed.
  destruct (api_key_of v w) as [|k key] eqn:Ek; [contradiction|].
  destruct (typed_topic v) as [|t topic] eqn:Et; [contradiction|].
  cbn [py_not]. unfold io_bind at 1. unfold show at 1.
  unfold try_except.
  rewrite (generate_parse_error repr json_loads crew_kickoff
             (t :: topic) (k :: key) output e _ Hcrew Hparse).
  unfold report, io_bind, show, with_form.
  cbn [environ files denied screen kickoffs].
  eexists. split; [reflexivity|].
  unfold shown_since. cbn [screen files kickoffs].
  rewrite <- !app_assoc, skipn_own_length. cbn [app].
  repeat split.
Qed.

Lemma parse_failure_reported_witness :
  pressed (mkVisitor (Some `"key") `"Mars" true) = true
  /\ api_key_of (mkVisitor (Some `"key") `"Mars" true) sample_world <> []
  /\ typed_topic (mkVisitor (Some `"key") `"Mars" true) <> []
  /\ sample_crew `"Mars" `"key" = Ok `"Sorry, no data about Mars"
  /\ (forall raw, clean_json `"Sorry, no data about Mars" = Ok raw ->
        sample_loads raw
        = Raise (Exn JSONDecodeError
                     `"Expecting value: line 1 column 1 (char 0)"))
  /\ exists w',
       main sample_repr sample_loads sample_crew
            (mkVisitor (Some `"key") `"Mars" true) sample_world = (Ok tt, w')
       /\ length (filter is_error (shown_since sample_world w')) = 1%nat
       /\ filter is_result (shown_since sample_world w') = []
       /\ files w' = [].
Proof.
  split; [reflexivity|]. split; [discriminate|]. split; [discriminate|].
  split; [reflexivity|]. split; [reflexivity|].
  destruct (parse_failure_reported sample_repr sample_loads sample_crew
              (mkVisitor (Some `"key") `"Mars" true) sample_world
              `"Sorry, no data about Mars"
              (Exn JSONDecodeError
                   `"Expecting value: line 1 column 1 (char 0)")
              eq_refl
              ltac:(discriminate) ltac:(discriminate) eq_refl
              (fun _ _ => eq_refl))
    as (w' & E & _ & N & R & F & _).
  exists w'. auto.
Defined.

(* ================================================================== *)
(** * More on the renderer: which records render, and what failure leaves *)
(* ================================================================== *)

Section Faults.

Variable repr : value -> str.

Lemma stat_box_not_dict bw by_ c i stat :
  is_dict stat = false ->
  stat_box repr bw by_ c (i, stat) = Raise (no_attribute stat "get").
Proof. destruct stat; try discriminate; reflexivity. Qed.

Lemma stat_box_dict bw by_ c i stat :
  is_dict stat = true -> exists c', stat_box repr bw by_ c (i, stat) = Ok c'.
Proof. destruct stat; try discriminate. intros _. eexists. reflexivity. Qed.

(** The stats loop gets through exactly when every entry is a dict. *)
Lemma for_in_dicts bw by_ boxes : forall start c c',
  for_in (combine (seq start (length boxes)) boxes) (stat_box repr bw by_) c
    = Ok c' ->
  forallb is_dict boxes = true.
Proof.
  induction boxes as [|b boxes IH]; intros start c c' E; [reflexivity|].
  cbn [length seq combine for_in] in E.
  destruct (is_dict b) eqn:Hb.
  - destruct (stat_box_dict bw by_ c start b Hb) as (c1 & E1).
    rewrite E1 in E. cbn [bind] in E. simpl. rewrite Hb.
    exact (IH _ _ _ E).
  - rewrite (stat_box_not_dict bw by_ c start b Hb) in E. discriminate.
Qed.

(** When it does not, the exception is an [AttributeError]. *)
Lemma for_in_fault bw by_ l : forall c e,
  for_in l (stat_box repr bw by_) c = Raise e ->
  exn_class_of e = AttributeError.
Proof.
  induction l as [|[i stat] l IH]; intros c e E; [discriminate|].
  cbn [for_in] in E.
  destruct (is_dict stat) eqn:Hb.
  - destruct (stat_box_dict bw by_ c i stat Hb) as (c1 & E1).
    rewrite E1 in E. exact (IH _ _ E).
  - rewrite (stat_box_not_dict bw by_ c i stat Hb) in E.
    injection E as <-. reflexivity.
Qed.

Lemma stat_box_pagesize bw by_ c x c' :
  stat_box repr bw by_ c x = Ok c' -> c_pagesize c' = c_pagesize c.
Proof.
  destruct x as [i stat]. unfold stat_box.
  destruct stat; cbn [get bind]; try discriminate.
  intros E. injection E as <-. reflexivity.
Qed.

Lemma for_in_pagesize bw by_ l : forall c c',
  for_in l (stat_box repr bw by_) c = Ok c' -> c_pagesize c' = c_pagesize c.
Proof.
  induction l as [|x l IH]; intros c c' E; simpl in E.
  - injection E as <-. reflexivity.
  - destruct (stat_box repr bw by_ c x) as [c1|e] eqn:E1; simpl in E;
      [|discriminate].
    apply IH in E. apply stat_box_pagesize in E1. congruence.
Qed.

Lemma draw_page_pagesize limit data filename c :
  draw_page repr limit data filename = Ok c -> c_pagesize c = A4.
Proof.
  unfold draw_page. destruct data; cbn [get bind]; try discriminate.
  destruct (slice_to 3 _) as [first3|]; cbn [bind]; [|discriminate].
  destruct (iterate first3) as [boxes|]; cbn [bind]; [|discriminate].
  destruct (for_in _ _ _) as [c1|] eqn:E1; cbn [bind]; [|discriminate].
  destruct (method_split _) as [words|]; cbn [bind]; [|discriminate].
  intros E. injection E as <-.
  apply for_in_pagesize in E1. exact E1.
Qed.

Lemma chars_not_dicts (s : str) :
  forallb is_dict (map (fun c => VStr [c]) s) = true -> s = [].
Proof. destruct s; [reflexivity|discriminate]. Qed.

(** The drawing gets through exactly on the renderable records. *)
Lemma draw_page_ok_iff limit data filename :
  (exists c, draw_page repr limit data filename = Ok c)
  <-> renderable data = true.
Proof.
  split.
  - intros [c E]. unfold draw_page in E.
    destruct data; cbn [get bind] in E; try discriminate.
    cbn [renderable].
    destruct (dict_get items `"stats" (VList [])) as [| | | |s|l|]
      eqn:Es; cbn [slice_to bind iterate] in E; try discriminate.
    + unfold enumerate in E.
      destruct (for_in _ _ _) as [c1|] eqn:E1; cbn [bind] in E;
        [|discriminate].
      apply for_in_dicts, chars_not_dicts in E1.
      destruct s as [|a s]; [|destruct s as [|b [|d s]]; discriminate].
      destruct (dict_get items `"summary" _); try discriminate.
      reflexivity.
    + unfold enumerate in E.
      destruct (for_in _ _ _) as [c1|] eqn:E1; cbn [bind] in E;
        [|discriminate].
      apply for_in_dicts in E1. cbn [stats_ok]. rewrite E1.
      destruct (dict_get items `"summary" _); try discriminate.
      reflexivity.
  - destruct data; cbn [renderable]; try discriminate.
    intros H. apply andb_prop in H. destruct H as [Hs Hsum].
    destruct (dict_get items `"summary" (VStr `"No summary available."))
      as [| | | |sum| |] eqn:Esum; try discriminate.
    destruct (dict_get items `"stats" (VList [])) as [| | | |s|l|]
      eqn:Es; try discriminate.
    + destruct s; [|discriminate].
      destruct (draw_page_layout repr limit items filename (VStr []) []
                  (split_ws sum)) as (c & E & _);
        [now rewrite Es|reflexivity|reflexivity|now rewrite Esum|].
      eauto.
    + destruct (draw_page_layout repr limit items filename
                  (VList (firstn 3 l)) (firstn 3 l) (split_ws sum))
        as (c & E & _);
        [now rewrite Es|reflexivity|exact Hs|now rewrite Esum|].
      eauto.
Qed.

(** What the drawing raises is the record's fault. *)
Lemma draw_page_fault limit data filename e :
  draw_page repr limit data filename = Raise e ->
  is_record_fault (exn_class_of e) = true.
Proof.
  unfold draw_page. destruct data; cbn [get bind];
    try (intros E; injection E as <-; reflexivity).
  destruct (dict_get items `"stats" (VList [])) as [| | | |s|l|];
    cbn [slice_to bind iterate];
    try (intros E; injection E as <-; reflexivity).
  - destruct (for_in _ _ _) as [c1|e1] eqn:E1; cbn [bind].
    + destruct (dict_get items `"summary" _); cbn [method_split bind];
        try (intros E; injection E as <-; reflexivity); discriminate.
    + intros E. injection E as <-.
      now rewrite (for_in_fault _ _ _ _ _ E1).
  - destruct (for_in _ _ _) as [c1|e1] eqn:E1; cbn [bind].
    + destruct (dict_get items `"summary" _); cbn [method_split bind];
        try (intros E; injection E as <-; reflexivity); discriminate.
    + intros E. injection E as <-.
      now rewrite (for_in_fault _ _ _ _ _ E1).
Qed.

End Faults.

Lemma lookup_other {A} key other (x : A) items :
  other <> key -> lookup other ((key, x) :: items) = lookup other items.
Proof.
  intros H. simpl. destruct (str_eqb key other) eqn:E; [|reflexivity].
  apply str_eqb_eq in E. congruence.
Qed.

(** X1. For a record that Python can print (no int of more than 4300
    digits, as in every value [json.loads] returns), the renderer returns
    the path exactly when the record is a dict whose stats are a list with
    dicts as its first three entries (or are missing, or the empty string)
    and whose summary is a str (or missing), and the path can be
    written. *)
Theorem render_succeeds_iff :
  forall repr data filename w,
    printable data = true ->
    (fst (create_infographic_pdf repr data filename w) = Ok filename
     <-> renderable data = true /\ denied w filename = None).
Proof.
  intros repr data filename w _. unfold create_infographic_pdf.
  rewrite create_infographic_pdf_cases.
  pose proof (draw_page_ok_iff repr wrap_limit data filename) as Hiff.
  destruct (draw_page repr wrap_limit data filename) as [c|e].
  - assert (Hr : renderable data = true) by (apply Hiff; eauto).
    destruct (denied w filename); cbn [fst]; split;
      try discriminate; auto.
    intros [_ H]. discriminate.
  - cbn [fst]. split; [discriminate|].
    intros [Hr _]. apply Hiff in Hr. destruct Hr as [c Hc]. discriminate.
Qed.

Lemma render_succeeds_iff_witness :
  printable (VDict sample_fields) = true
  /\ (renderable (VDict sample_fields) = true
      /\ denied sample_world default_filename = None)
  /\ fst (create_infographic_pdf sample_repr (VDict sample_fields)
            default_filename sample_world) = Ok default_filename.
Proof.
  split; [vm_compute; reflexivity|]. split; [split; reflexivity|].
  apply (proj2 (render_succeeds_iff sample_repr (VDict sample_fields)
                  default_filename sample_world eq_refl)).
  split; reflexivity.
Defined.

(** X2. On a path that cannot be written, a record that Python can print
    and that is renderable makes the renderer raise [OSError] with the
    system's message, and nothing is written or changed: the whole page is
    drawn in memory first, and the one failure left for such a record is
    the write. *)
Theorem render_failure_leaves_world :
  forall repr data filename w msg,
    printable data = true ->
    renderable data = true ->
    denied w filename = Some msg ->
    create_infographic_pdf repr data filename w
    = (Raise (Exn OSError msg), w).
Proof.
  intros repr data filename w msg _ Hr Hw. unfold create_infographic_pdf.
  rewrite create_infographic_pdf_cases.
  destruct (proj2 (draw_page_ok_iff repr wrap_limit data filename) Hr)
    as [c Hc].
  now rewrite Hc, Hw.
Qed.

Lemma render_failure_leaves_world_witness :
  printable (VDict sample_fields) = true
  /\ renderable (VDict sample_fields) = true
  /\ denied locked_world default_filename
     = Some `"[Errno 13] Permission denied"
  /\ create_infographic_pdf sample_repr (VDict sample_fields)
       default_filename locked_world
     = (Raise (Exn OSError `"[Errno 13] Permission denied"), locked_world).
Proof.
  split; [vm_compute; reflexivity|].
  split; [reflexivity|]. split; [reflexivity|].
  apply (render_failure_leaves_world sample_repr (VDict sample_fields)
           default_filename locked_world `"[Errno 13] Permission denied"
           eq_refl eq_refl eq_refl).
Defined.

(** X3. A record that Python can print, whose stats are not a dict, and
    that is not renderable makes the renderer raise an [AttributeError] or a
    [TypeError], whether or not the path can be written: the record's fault
    is met before the file is touched. Data that is not a dict at all (a
    list, a string, a number, null) raises
    ['T' object has no attribute 'get']. *)
Theorem record_fault_comes_first :
  forall repr data filename w,
    (printable data = true -> dict_stats data = false ->
     renderable data = false ->
       exists e,
         create_infographic_pdf repr data filename w = (Raise e, w)
         /\ is_record_fault (exn_class_of e) = true)
    /\ (is_dict data = false ->
          create_infographic_pdf repr data filename w
          = (Raise (no_attribute data "get"), w)).
Proof.
  intros repr data filename w. unfold create_infographic_pdf.
  rewrite create_infographic_pdf_cases. split.
  - intros _ _ Hr.
    pose proof (draw_page_ok_iff repr wrap_limit data filename) as Hiff.
    destruct (draw_page repr wrap_limit data filename) as [c|e] eqn:E.
    + assert (renderable data = true) by (apply Hiff; eauto). congruence.
    + exists e. split; [reflexivity|].
      exact (draw_page_fault repr wrap_limit data filename e E).
  - intros Hd. destruct data; try discriminate; reflexivity.
Qed.

Lemma record_fault_comes_first_witness :
  printable (VDict [(`"stats", VInt 3)]) = true
  /\ dict_stats (VDict [(`"stats", VInt 3)]) = false
  /\ renderable (VDict [(`"stats", VInt 3)]) = false
  /\ exists e,
       create_infographic_pdf sample_repr (VDict [(`"stats", VInt 3)])
                              default_filename locked_world
         = (Raise e, locked_world)
       /\ is_record_fault (exn_class_of e) = true.
Proof.
  split; [vm_compute; reflexivity|]. split; [reflexivity|].
  split; [reflexivity|].
  apply (proj1 (record_fault_comes_first sample_repr
                  (VDict [(`"stats", VInt 3)]) default_filename locked_world));
    reflexivity.
Defined.

(** X4. Stats beyond the third are never looked at: two stats lists with
    the same first three entries give the same result and the same saved
    page, whatever comes after, well-formed or not. *)
Theorem stats_tail_ignored :
  forall repr others l l' filename w,
    firstn 3 l = firstn 3 l' ->
    create_infographic_pdf repr (VDict ((`"stats", VList l) :: others))
                           filename w
    = create_infographic_pdf repr (VDict ((`"stats", VList l') :: others))
                             filename w.
Proof.
  intros repr others l l' filename w H. unfold create_infographic_pdf.
  rewrite !create_infographic_pdf_cases.
  assert (E : draw_page repr wrap_limit
                (VDict ((`"stats", VList l) :: others)) filename
              = draw_page repr wrap_limit
                  (VDict ((`"stats", VList l') :: others)) filename).
  { unfold draw_page. cbn [get bind].
    change (dict_get ((`"stats", VList l) :: others) `"stats" (VList []))
      with (VList l).
    change (dict_get ((`"stats", VList l') :: others) `"stats" (VList []))
      with (VList l').
    change (dict_get ((`"stats", VList l) :: others) `"topic")
      with (dict_get others `"topic").
    change (dict_get ((`"stats", VList l') :: others) `"topic")
      with (dict_get others `"topic").
    change (dict_get ((`"stats", VList l) :: others) `"summary")
      with (dict_get others `"summary").
    change (dict_get ((`"stats", VList l') :: others) `"summary")
      with (dict_get others `"summary").
    change (dict_get ((`"stats", VList l) :: others) `"fun_fact")
      with (dict_get others `"fun_fact").
    change (dict_get ((`"stats", VList l') :: others) `"fun_fact")
      with (dict_get others `"fun_fact").
    cbn [slice_to bind]. rewrite H. reflexivity. }
  rewrite E. reflexivity.
Qed.

Lemma stats_tail_ignored_witness :
  firstn 3 sample_stats = firstn 3 (firstn 3 sample_stats ++ [VInt 7])
  /\ create_infographic_pdf sample_repr
       (VDict [(`"stats", VList sample_stats)]) default_filename sample_world
     = create_infographic_pdf sample_repr
         (VDict [(`"stats", VList (firstn 3 sample_stats ++ [VInt 7]))])
         default_filename sample_world.
Proof.
  split; [reflexivity|].
  apply (stats_tail_ignored sample_repr [] sample_stats
           (firstn 3 sample_stats ++ [VInt 7]) default_filename sample_world).
  reflexivity.
Defined.

(** X9. After the renderer has returned, the file at the path opens and
    holds an A4 page; every other file is as it was, and so are the
    environment, the screen and the record of upstream runs. *)
Theorem saved_page_opens :
  forall repr data filename w path,
    fst (create_infographic_pdf repr data filename w) = Ok path ->
    exists doc,
      open_rb path (snd (create_infographic_pdf repr data filename w))
        = (Ok doc, snd (create_infographic_pdf repr data filename w))
      /\ doc_pagesize doc = A4
      /\ (forall other,
             other <> filename ->
             lookup other
               (files (snd (create_infographic_pdf repr data filename w)))
             = lookup other (files w))
      /\ environ (snd (create_infographic_pdf repr data filename w))
         = environ w
      /\ screen (snd (create_infographic_pdf repr data filename w))
         = screen w
      /\ kickoffs (snd (create_infographic_pdf repr data filename w))
         = kickoffs w.
Proof.
  intros repr data filename w path. unfold create_infographic_pdf.
  rewrite create_infographic_pdf_cases.
  destruct (draw_page repr wrap_limit data filename) as [c|e] eqn:E;
    [|discriminate].
  destruct (denied w filename); [discriminate|].
  cbn [fst snd]. intros H. injection H as <-.
  exists (mkDocument (c_pagesize c) (c_code c)).
  unfold open_rb. cbn [files environ screen kickoffs].
  rewrite lookup_head. split; [reflexivity|].
  split; [exact (draw_page_pagesize repr wrap_limit data filename c E)|].
  split; [|auto].
  intros other Ho. now apply lookup_other.
Qed.

Lemma saved_page_opens_witness :
  fst (create_infographic_pdf sample_repr (VDict sample_fields)
         default_filename sample_world) = Ok default_filename
  /\ exists doc,
       open_rb default_filename
         (snd (create_infographic_pdf sample_repr (VDict sample_fields)
                 default_filename sample_world))
       = (Ok doc,
          snd (create_infographic_pdf sample_repr (VDict sample_fields)
                 default_filename sample_world))
       /\ doc_pagesize doc = A4.
Proof.
  split; [reflexivity|].
  destruct (saved_page_opens sample_repr (VDict sample_fields)
              default_filename sample_world default_filename eq_refl)
    as (doc & E & P & _).
  exists doc. auto.
Defined.

(* ================================================================== *)
(** * More on the wrap: words kept, lines bounded *)
(* ================================================================== *)

Lemma flushed_length limit words : forall buffer,
  (length (flushed limit buffer words) <= length words)%nat.
Proof.
  induction words as [|w words IH]; intros buffer; simpl; [lia|].
  destruct (limit <? len (join `" " (buffer ++ [w])))%nat; simpl.
  - specialize (IH []). lia.
  - specialize (IH (buffer ++ [w])). lia.
Qed.

Lemma join_cons_length sep x l :
  (len (join sep (x :: l)) <= len x + len sep + len (join sep l))%nat.
Proof.
  unfold len. destruct l as [|y l]; [simpl; lia|].
  change (join sep (x :: y :: l)) with (x ++ sep ++ join sep (y :: l)).
  rewrite !length_app. lia.
Qed.

(** One more word makes the joined buffer longer by at most a separator and
    the word. *)
Lemma join_snoc_length sep w l :
  (len (join sep (l ++ [w])) <= len (join sep l) + len sep + len w)%nat.
Proof.
  unfold len. induction l as [|x l IH]; [simpl; lia|].
  destruct l as [|y l].
  - simpl. rewrite !length_app. lia.
  - change ((x :: y :: l) ++ [w]) with (x :: (y :: l) ++ [w]).
    change (join sep (x :: (y :: l) ++ [w]))
      with (x ++ sep ++ join sep ((y :: l) ++ [w])).
    change (join sep (x :: y :: l)) with (x ++ sep ++ join sep (y :: l)).
    rewrite !length_app. lia.
Qed.

(** X5. The wrap loses no word and invents none: the written lines, split
    again, are the words of the summary in their order; and there is at
    most one line more than there are words. *)
Theorem wrap_keeps_words :
  forall limit s,
    concat (map split_ws (summary_lines limit s)) = split_ws s
    /\ (length (summary_lines limit s) <= length (split_ws s) + 1)%nat.
Proof.
  intros limit s. rewrite summary_lines_spec. split.
  - destruct (wrap_spec_groups limit (split_ws s) []) as (groups & E & C).
    simpl in C. rewrite <- (split_ws_join newline) by reflexivity.
    rewrite E. change (`" ") with [space].
    rewrite split_ws_lines; [exact C|reflexivity|].
    rewrite C. apply split_ws_words.
  - rewrite wrap_spec_flushed, length_app. simpl.
    pose proof (flushed_length limit (split_ws s) []). lia.
Qed.

(** X6. A written line is either within the threshold or exceeds it by at
    most one space and one word of the summary, its last; so if no word is
    longer than [k], no line is longer than the threshold plus [k + 1]. *)
Theorem wrap_line_bound :
  forall limit s,
    (forall line,
        In line (summary_lines limit s) ->
        (len line <= limit)%nat
        \/ exists w,
             In w (split_ws s)
             /\ (limit < len line <= limit + 1 + len w)%nat)
    /\ (forall k,
           Forall (fun w => (len w <= k)%nat) (split_ws s) ->
           Forall (fun line => (len line <= limit + 1 + k)%nat)
                  (summary_lines limit s)).
Proof.
  intros limit s.
  assert (H : forall line,
             In line (summary_lines limit s) ->
             (len line <= limit)%nat
             \/ exists w,
                  In w (split_ws s)
                  /\ (limit < len line <= limit + 1 + len w)%nat).
  { intros line Hin. rewrite summary_lines_spec in Hin.
    destruct (wrap_spec_breaks limit (split_ws s) [])
      as (groups & last & E & C & F & L); [simpl; lia|].
    simpl in C. rewrite E in Hin. apply in_app_or in Hin.
    destruct Hin as [Hin|[<-|[]]]; [|now left].
    right. apply in_map_iff in Hin. destruct Hin as (g & <- & Hg).
    rewrite Forall_forall in F.
    destruct (F g Hg) as (before & w & -> & Hb & Ha).
    exists w. split.
    - rewrite C. apply in_or_app. left. apply in_concat.
      exists (before ++ [w]). split; [exact Hg|].
      apply in_or_app. right. now left.
    - pose proof (join_snoc_length `" " w before) as J.
      change (len `" ") with 1%nat in J. lia. }
  split; [exact H|].
  intros k Hk. apply Forall_forall. intros line Hin.
  destruct (H line Hin) as [Hl|(w & Hw & Hl)]; [lia|].
  rewrite Forall_forall in Hk. specialize (Hk w Hw). simpl in Hk. lia.
Qed.

Lemma wrap_line_bound_witness :
  Forall (fun w => (len w <= 1)%nat) (split_ws `"A B C D E F")
  /\ Forall (fun line => (len line <= 2 + 1 + 1)%nat)
            (summary_lines 2 `"A B C D E F").
Proof.
  assert (H : Forall (fun w => (len w <= 1)%nat) (split_ws `"A B C D E F")).
  { repeat constructor. }
  split; [exact H|].
  exact (proj2 (wrap_line_bound 2 `"A B C D E F") 1%nat H).
Defined.

(* ================================================================== *)
(** * More on the layout: what stays on the page *)
(* ================================================================== *)

Lemma heading_height_value :
  summary_y - 0.5 * inch == 292284 # 635.
Proof. vm_compute. reflexivity. Qed.

Lemma page_width_value : fst A4 == 75600 # 127.
Proof. vm_compute. reflexivity. Qed.

Lemma slot_end_value (i : nat) :
  slot_x box_width i + box_width
  == inject_Z (Z.of_nat i) * (864 # 5) + (972 # 5).
Proof. unfold slot_x, box_width, inch. ring. Qed.

(** The heading under a summary of [n] lines is below the bottom edge of the
    page from 33 lines on. *)
Lemma heading_below_page (n : nat) :
  summary_y - inject_Z (Z.of_nat n) * 14 - 0.5 * inch < 0
  <-> (33 <= n)%nat.
Proof.
  setoid_replace (summary_y - inject_Z (Z.of_nat n) * 14 - 0.5 * inch)
    with ((292284 # 635) - inject_Z (Z.of_nat n) * 14)
    by (rewrite <- heading_height_value; ring).
  unfold Qlt, Qminus, Qplus, Qopp, Qmult, inject_Z.
  cbn [Qnum Qden]. lia.
Qed.

(** Slot [i] ends inside the page width exactly for the first three. *)
Lemma slot_inside_page (i : nat) :
  slot_x box_width i + box_width <= fst A4 <-> (i < 3)%nat.
Proof.
  rewrite slot_end_value, page_width_value.
  unfold Qle, Qplus, Qmult, inject_Z. cbn [Qnum Qden]. lia.
Qed.

Lemma slot_x_nonneg (i : nat) : 0 <= slot_x box_width i.
Proof.
  setoid_replace (slot_x box_width i)
    with (inject_Z (Z.of_nat i) * (864 # 5) + 36)
    by (unfold slot_x, box_width, inch; ring).
  unfold Qle, Qplus, Qmult, inject_Z. cbn [Qnum Qden]. lia.
Qed.

Lemma slot_on_page (i : nat) : (i < 3)%nat -> on_page (slot i).
Proof.
  intros Hi. unfold slot, on_page.
  split; [apply slot_x_nonneg|].
  split; [now apply slot_inside_page|].
  split; vm_compute; discriminate.
Qed.

Section Pages.

Variable repr : value -> str.

(** The page of a renderable record: the layout, with at most three
    boxes. *)
Lemma rendered_page limit data filename c :
  draw_page repr limit data filename = Ok c ->
  exists topic boxes words fun_fact,
    c_code c = page_code repr limit topic boxes words fun_fact
    /\ forallb is_dict boxes = true
    /\ (length boxes <= 3)%nat.
Proof.
  intros E.
  assert (Hr : renderable data = true)
    by (apply (draw_page_ok_iff repr limit data filename); eauto).
  destruct data; cbn [renderable] in Hr; try discriminate.
  apply andb_prop in Hr. destruct Hr as [Hs Hsum].
  destruct (dict_get items `"summary" (VStr `"No summary available."))
    as [| | | |sum| |] eqn:Esum; try discriminate.
  destruct (dict_get items `"stats" (VList [])) as [| | | |s|l|]
    eqn:Es; try discriminate.
  - destruct s; [|discriminate].
    destruct (draw_page_layout repr limit items filename (VStr []) []
                (split_ws sum)) as (c' & E' & Hc & _);
      [now rewrite Es|reflexivity|reflexivity|now rewrite Esum|].
    rewrite E in E'. injection E' as <-.
    do 4 eexists. split; [exact Hc|]. split; [reflexivity|simpl; lia].
  - destruct (draw_page_layout repr limit items filename
                (VList (firstn 3 l)) (firstn 3 l) (split_ws sum))
      as (c' & E' & Hc & _);
      [now rewrite Es|reflexivity|exact Hs|now rewrite Esum|].
    rewrite E in E'. injection E' as <-.
    do 4 eexists. split; [exact Hc|]. split; [exact Hs|].
    rewrite length_firstn. lia.
Qed.

End Pages.

(** X7. Nothing paginates or clips the summary: each line moves the "Did
    You Know?" heading 14 points down, and from 33 summary lines on the
    heading is drawn below the bottom edge of the page (at a negative
    height). *)
Theorem heading_leaves_page :
  forall repr r filename w,
    denied w filename = None ->
    exists doc w' y,
      create_infographic_pdf repr (record_dict r) filename w
        = (Ok filename, w')
      /\ lookup filename (files w') = Some doc
      /\ height_of `"Did You Know?" (doc_code doc) = Some y
      /\ y == summary_y
              - inject_Z (Z.of_nat (length (text_lines (doc_code doc)))) * 14
              - 0.5 * inch
      /\ (y < 0 <-> (33 <= length (text_lines (doc_code doc)))%nat).
Proof.
  intros repr r filename w Hw.
  destruct (record_saved repr r filename w Hw) as (w' & E & L & _).
  destruct (page_heading_height repr wrap_limit
              (VStr (or_default `"Unknown Topic" (topic r))) (boxes_of r)
              (split_ws (or_default `"No summary available." (summary r)))
              (VStr (or_default `"" (fun_fact r)))) as (y & Hy & Ey).
  exists (record_page repr r), w', y.
  split; [exact E|]. split; [exact L|].
  unfold record_page. cbn [doc_code]. rewrite page_text_lines.
  split; [exact Hy|]. split; [exact Ey|].
  rewrite Ey. apply heading_below_page.
Qed.

Lemma heading_leaves_page_witness :
  denied sample_world default_filename = None
  /\ exists doc w' y,
       create_infographic_pdf sample_repr
         (record_dict (mkRecord None (Some long_summary) None None))
         default_filename sample_world = (Ok default_filename, w')
       /\ lookup default_filename (files w') = Some doc
       /\ height_of `"Did You Know?" (doc_code doc) = Some y
       /\ (y < 0
           <-> (33 <= length (text_lines (doc_code doc)))%nat).
Proof.
  split; [reflexivity|].
  destruct (heading_leaves_page sample_repr
              (mkRecord None (Some long_summary) None None)
              default_filename sample_world eq_refl)
    as (doc & w' & y & E & L & Hy & Ey & Hlt).
  exists doc, w', y. auto.
Defined.

(** A summary of 33 long words puts the heading below the page. *)
Example long_summary_lines :
  length (summary_lines wrap_limit long_summary) = 34%nat.
Proof. vm_compute. reflexivity. Qed.

(** X8. Every box the renderer draws lies on the page, and no two overlap:
    slot [i] ends inside the page width exactly when [i < 3], which is the
    number of stats the loop takes, and each slot starts to the right of
    the end of the one before. *)
Theorem boxes_stay_on_page :
  forall repr data filename w path doc,
    fst (create_infographic_pdf repr data filename w) = Ok path ->
    lookup filename
      (files (snd (create_infographic_pdf repr data filename w))) = Some doc ->
    Forall on_page (round_rects (doc_code doc))
    /\ (forall i, slot_x box_width i + box_width <= fst A4 <-> (i < 3)%nat)
    /\ (forall i, slot_x box_width i + box_width < slot_x box_width (S i)).
Proof.
  intros repr data filename w path doc. unfold create_infographic_pdf.
  rewrite create_infographic_pdf_cases.
  destruct (draw_page repr wrap_limit data filename) as [c|e] eqn:E;
    [|discriminate].
  destruct (denied w filename); [discriminate|].
  cbn [fst snd files]. intros _. rewrite lookup_head.
  intros H. injection H as <-. cbn [doc_code].
  destruct (rendered_page repr wrap_limit data filename c E)
    as (topic & boxes & words & ff & Hc & Hd & Hl).
  split; [|split; [exact slot_inside_page|]].
  - rewrite Hc, page_round_rects by exact Hd.
    apply Forall_forall. intros box Hin. apply in_map_iff in Hin.
    destruct Hin as (i & <- & Hi). apply in_seq in Hi.
    apply slot_on_page. lia.
  - intros i.
    setoid_replace (slot_x box_width (S i))
      with (slot_x box_width i + box_width + 0.2 * inch)
      by (rewrite <- (Qplus_assoc _ box_width), <- (slot_x_step i); ring).
    rewrite <- (Qplus_0_r (slot_x box_width i + box_width)) at 1.
    apply Qplus_lt_r. reflexivity.
Qed.

Lemma boxes_stay_on_page_witness :
  fst (create_infographic_pdf sample_repr (VDict sample_fields)
         default_filename sample_world) = Ok default_filename
  /\ lookup default_filename
       (files (snd (create_infographic_pdf sample_repr (VDict sample_fields)
                      default_filename sample_world)))
     = Some (mkDocument A4
               (page_code sample_repr wrap_limit (VStr `"Mars")
                  (firstn 3 sample_stats) [`"No"; `"summary"; `"available."]
                  (VStr `"")))
  /\ Forall on_page
       (round_rects
          (page_code sample_repr wrap_limit (VStr `"Mars")
             (firstn 3 sample_stats) [`"No"; `"summary"; `"available."]
             (VStr `""))).
Proof.
  split; [reflexivity|]. split; [reflexivity|].
  apply (proj1 (boxes_stay_on_page sample_repr (VDict sample_fields)
                  default_filename sample_world default_filename
                  (mkDocument A4
                     (page_code sample_repr wrap_limit (VStr `"Mars")
                        (firstn 3 sample_stats)
                        [`"No"; `"summary"; `"available."] (VStr `"")))
                  eq_refl eq_refl)).
Defined.

(* ================================================================== *)
(** * More on the clean-up: what reaches the parser *)
(* ================================================================== *)

Lemma lstrip_suffix s : exists a, s = a ++ lstrip s.
Proof.
  induction s as [|c s [a IH]]; [exists []; reflexivity|].
  simpl. destruct (isspace c).
  - exists (c :: a). simpl. now rewrite <- IH.
  - exists []. reflexivity.
Qed.

Lemma rstrip_prefix s : exists b, s = rstrip s ++ b.
Proof.
  unfold rstrip. destruct (lstrip_suffix (rev s)) as [a E].
  exists (rev a). rewrite <- rev_app_distr, <- E. now rewrite rev_involutive.
Qed.

Lemma strip_inside s : exists a b, s = a ++ strip s ++ b.
Proof.
  unfold strip. destruct (lstrip_suffix s) as [a Ea].
  destruct (rstrip_prefix (lstrip s)) as [b Eb].
  exists a, b. now rewrite <- Eb.
Qed.

Lemma upto_prefix sep s : exists b, s = upto sep s ++ b.
Proof.
  unfold upto. destruct (find sep s) as [p|].
  - exists (skipn p s). now rewrite firstn_skipn.
  - exists []. now rewrite app_nil_r.
Qed.

Lemma upto_without sep s : sep <> [] -> find sep (upto sep s) = None.
Proof.
  intros Hsep. unfold upto. destruct (find sep s) as [p|] eqn:F.
  - exact (find_firstn_None _ _ _ Hsep F).
  - exact F.
Qed.

(** X10. The text handed to [json.loads] never holds a fence: whatever the
    upstream text, no [```] is left in what the clean-up returns. *)
Theorem cleaned_text_has_no_fence :
  forall output raw,
    clean_json output = Ok raw ->
    contains fence raw = false /\ contains fence_json raw = false.
Proof.
  intros output raw E. rewrite clean_json_cases in E. cbv zeta in E.
  injection E as E.
  assert (H : find fence raw = None).
  { subst raw. destruct (find fence_json (strip output)).
    - apply upto_without, fence_not_empty.
    - destruct (find fence (strip output)) eqn:F.
      + apply upto_without, fence_not_empty.
      + exact F. }
  unfold contains. rewrite H, (no_fence_no_json _ H). auto.
Qed.

Lemma cleaned_text_has_no_fence_witness :
  clean_json `"```[1]``` ```json [2]```" = Ok `" [2]"
  /\ contains fence `" [2]" = false /\ contains fence_json `" [2]" = false.
Proof.
  split; [reflexivity|].
  apply (cleaned_text_has_no_fence `"```[1]``` ```json [2]```" `" [2]").
  reflexivity.
Defined.

(** X11. What the clean-up returns is a piece of the upstream text as it
    came: nothing is added, replaced or reordered, only text before and
    after the piece is dropped. *)
Theorem cleaned_text_is_inside :
  forall output,
    exists raw before after,
      clean_json output = Ok raw
      /\ output = before ++ raw ++ after.
Proof.
  intros output. rewrite clean_json_cases. cbv zeta.
  destruct (strip_inside output) as (a & b & Es).
  set (s := strip output) in *.
  destruct (find fence_json s) as [i|].
  - destruct (upto_prefix fence_json (skipn (i + len fence_json) s))
      as [b1 E1].
    destruct (upto_prefix fence
                (upto fence_json (skipn (i + len fence_json) s)))
      as [b2 E2].
    eexists. exists (a ++ firstn (i + len fence_json) s), (b2 ++ b1 ++ b).
    split; [reflexivity|].
    rewrite Es at 1.
    rewrite <- (firstn_skipn (i + len fence_json) s) at 1.
    rewrite E1 at 1. rewrite E2 at 1.
    now rewrite <- !app_assoc.
  - destruct (find fence s) as [i|].
    + destruct (upto_prefix fence (skipn (i + len fence) s)) as [b1 E1].
      eexists. exists (a ++ firstn (i + len fence) s), (b1 ++ b).
      split; [reflexivity|].
      rewrite Es at 1.
      rewrite <- (firstn_skipn (i + len fence) s) at 1.
      rewrite E1 at 1. now rewrite <- !app_assoc.
    + exists s, a, b. auto.
Qed.

Lemma lstrip_before c a s :
  isspace c = false -> lstrip (a ++ c :: s) = lstrip a ++ c :: s.
Proof.
  intros Hc. induction a as [|x a IH]; simpl.
  - now rewrite Hc.
  - destruct (isspace x); [exact IH|reflexivity].
Qed.

Lemma rstrip_after c s b :
  isspace c = false -> rstrip (s ++ c :: b) = s ++ c :: rstrip b.
Proof.
  intros Hc. unfold rstrip.
  rewrite rev_app_distr. simpl rev. rewrite <- app_assoc. simpl app.
  rewrite (lstrip_before _ _ _ Hc), rev_app_distr. simpl rev.
  rewrite rev_involutive, <- app_assoc. reflexivity.
Qed.

(** Stripping a text whose middle starts and ends with a backtick strips
    what is around the middle. *)
Lemma strip_around_ticks pre mid post :
  strip (pre ++ tick :: mid ++ tick :: post)
  = lstrip pre ++ tick :: mid ++ tick :: rstrip post.
Proof.
  unfold strip. rewrite lstrip_before by reflexivity.
  rewrite app_comm_cons, app_assoc.
  rewrite rstrip_after by reflexivity.
  now rewrite <- app_assoc, <- app_comm_cons.
Qed.

Lemma no_tick_app a b : no_tick (a ++ b) = no_tick a && no_tick b.
Proof. apply forallb_app. Qed.

Lemma no_tick_lstrip s : no_tick s = true -> no_tick (lstrip s) = true.
Proof.
  intros H. destruct (lstrip_suffix s) as [a E]. rewrite E in H.
  rewrite no_tick_app in H. now apply andb_prop in H.
Qed.

Lemma no_tick_rstrip s : no_tick s = true -> no_tick (rstrip s) = true.
Proof.
  intros H. destruct (rstrip_prefix s) as [b E]. rewrite E in H.
  rewrite no_tick_app in H. now apply andb_prop in H.
Qed.

Lemma startswith_same c p s :
  startswith (c :: p) (c :: s) = startswith p s.
Proof. simpl. now rewrite N.eqb_refl. Qed.

Lemma startswith_other c d p s :
  (d =? c)%N = false -> startswith (c :: p) (d :: s) = false.
Proof. intros H. simpl. rewrite N.eqb_sym. now rewrite H. Qed.

(** A pattern that starts with a backtick does not start where there is
    none. *)
Lemma startswith_no_tick p s :
  no_tick s = true -> startswith (tick :: p) s = false.
Proof.
  destruct s as [|d s]; [reflexivity|]. simpl no_tick.
  intros H. apply andb_prop in H. destruct H as [H _].
  apply negb_true_iff in H. now apply startswith_other.
Qed.

Lemma find_no_tick p s : no_tick s = true -> find (tick :: p) s = None.
Proof.
  induction s as [|d s IH]; [reflexivity|].
  intros H. rewrite find_cons, (startswith_no_tick _ _ H).
  simpl no_tick in H. apply andb_prop in H. destruct H as [_ H].
  now rewrite IH.
Qed.

(** The search passes over a stretch without backticks. *)
Lemma find_skip p a s :
  no_tick a = true ->
  find (tick :: p) (a ++ s)
  = option_map (Nat.add (length a)) (find (tick :: p) s).
Proof.
  induction a as [|d a IH]; intros H.
  - simpl. now destruct (find (tick :: p) s).
  - simpl no_tick in H. apply andb_prop in H. destruct H as [Hd H].
    apply negb_true_iff in Hd.
    change ((d :: a) ++ s) with (d :: a ++ s).
    rewrite find_cons, (startswith_other _ _ _ _ Hd), (IH H).
    now destruct (find (tick :: p) s).
Qed.

Lemma find_start sep s : startswith sep s = true -> find sep s = Some 0%nat.
Proof. intros H. destruct s; simpl; now rewrite H. Qed.

Lemma startswith_own sep s : startswith sep (sep ++ s) = true.
Proof.
  induction sep as [|c sep IH]; [reflexivity|].
  simpl. now rewrite N.eqb_refl.
Qed.

Lemma skipn_past {A} (a b : list A) : skipn (length a) (a ++ b) = b.
Proof. induction a; simpl; auto. Qed.

Lemma firstn_upto {A} (a b : list A) : firstn (length a) (a ++ b) = a.
Proof. induction a; simpl; [reflexivity|]. now f_equal. Qed.

(** After a closing fence and text without backticks, a [```json] marker
    can only sit on the fence itself. *)
Lemma find_json_at_fence b :
  no_tick b = true ->
  find fence_json (fence ++ b)
  = if startswith `"json" b then Some 0%nat else None.
Proof.
  intros Hb.
  change fence_json with (tick :: tick :: tick :: `"json").
  change (fence ++ b) with (tick :: tick :: tick :: b).
  rewrite find_cons, !startswith_same.
  destruct (startswith `"json" b); [reflexivity|].
  rewrite find_cons, !startswith_same, (startswith_no_tick _ _ Hb).
  rewrite find_cons, !startswith_same, (startswith_no_tick _ _ Hb).
  now rewrite (find_no_tick _ _ Hb).
Qed.

(** The block that ends at a closing fence, found from its start. *)
Lemma upto_closing_fence j b :
  no_tick j = true -> no_tick b = true ->
  upto fence (upto fence_json (j ++ fence ++ b)) = j.
Proof.
  intros Hj Hb.
  assert (Hf : find fence (j ++ fence ++ b) = Some (length j + 0)%nat).
  { change fence with (tick :: [tick; tick]) at 1.
    rewrite (find_skip _ _ _ Hj).
    change (tick :: [tick; tick]) with fence.
    now rewrite (find_start _ _ (startswith_own fence b)). }
  unfold upto at 2.
  change fence_json with (tick :: tick :: tick :: `"json") at 1.
  rewrite (find_skip _ _ _ Hj).
  change (tick :: tick :: tick :: `"json") with fence_json.
  rewrite (find_json_at_fence _ Hb).
  destruct (startswith `"json" b); cbn [option_map].
  - rewrite Nat.add_0_r, firstn_upto. unfold upto.
    change fence with (tick :: [tick; tick]).
    now rewrite (find_no_tick _ _ Hj).
  - unfold upto. rewrite Hf, Nat.add_0_r. apply firstn_upto.
Qed.

(** X12. Round trip through a [```json] block: a text without backticks,
    wrapped in [```json] and [```] and put between any prose without
    backticks, comes back from the clean-up as it went in. *)
Theorem json_fence_round_trip :
  forall pre j post,
    no_tick pre = true -> no_tick j = true -> no_tick post = true ->
    clean_json (pre ++ fence_json ++ j ++ fence ++ post) = Ok j.
Proof.
  intros pre j post Hpre Hj Hpost.
  rewrite clean_json_cases. cbv zeta.
  assert (Es : strip (pre ++ fence_json ++ j ++ fence ++ post)
               = lstrip pre ++ fence_json ++ (j ++ fence ++ rstrip post)).
  { change fence_json with (tick :: `"``json").
    change fence with (`"``" ++ [tick]).
    change (pre ++ (tick :: `"``json") ++ j ++ (`"``" ++ [tick]) ++ post)
      with (pre ++ tick :: `"``json" ++ j ++ `"``" ++ tick :: post).
    rewrite (app_assoc `"``json"), (app_assoc (`"``json" ++ j)).
    rewrite strip_around_ticks.
    now rewrite <- !app_assoc. }
  rewrite Es.
  apply no_tick_lstrip in Hpre. apply no_tick_rstrip in Hpost.
  change fence_json with (tick :: `"``json") at 1 3.
  rewrite (find_skip _ _ _ Hpre).
  change (tick :: `"``json") with fence_json.
  rewrite (find_start _ _ (startswith_own fence_json _)).
  cbn [option_map]. rewrite Nat.add_0_r.
  rewrite app_assoc.
  replace (length (lstrip pre) + len fence_json)%nat
    with (length (lstrip pre ++ fence_json))
    by (rewrite length_app; reflexivity).
  rewrite skipn_past.
  now rewrite upto_closing_fence.
Qed.

Lemma json_fence_round_trip_witness :
  no_tick `"Here is the result: " = true
  /\ no_tick `"{topic: Mars}" = true
  /\ no_tick `" Hope this helps!" = true
  /\ clean_json (`"Here is the result: " ++ fence_json ++ `"{topic: Mars}"
                 ++ fence ++ `" Hope this helps!")
     = Ok `"{topic: Mars}".
Proof.
  split; [reflexivity|]. split; [reflexivity|]. split; [reflexivity|].
  apply (json_fence_round_trip `"Here is the result: " `"{topic: Mars}"
           `" Hope this helps!"); reflexivity.
Defined.

Lemma find_closing_fence j b :
  no_tick j = true ->
  find fence (j ++ fence ++ b) = Some (length j).
Proof.
  intros Hj. change fence with (tick :: [tick; tick]) at 1.
  rewrite (find_skip _ _ _ Hj).
  change (tick :: [tick; tick]) with fence.
  rewrite (find_start _ _ (startswith_own fence b)).
  cbn [option_map]. now rewrite Nat.add_0_r.
Qed.

(** A plain fenced block that does not begin with the letter j, followed by
    text that does not either, holds no [```json] marker. *)
Lemma plain_block_not_json j b :
  no_tick j = true -> no_tick b = true ->
  startswith `"j" j = false -> startswith `"j" b = false ->
  find fence_json (fence ++ j ++ fence ++ b) = None.
Proof.
  intros Hj Hb Hjj Hbj.
  assert (Hb4 : startswith `"json" b = false).
  { destruct (startswith `"json" b) eqn:E; [|reflexivity].
    apply (startswith_shorter `"j" `"son") in E. congruence. }
  assert (Hend : find fence_json (fence ++ b) = None).
  { now rewrite (find_json_at_fence _ Hb), Hb4. }
  change fence_json with (tick :: tick :: tick :: 106%N :: `"son").
  change (fence ++ j ++ fence ++ b)
    with (tick :: tick :: tick :: j ++ fence ++ b).
  assert (Ht : (tick =? 106)%N = false) by reflexivity.
  assert (Htt : (tick =? tick)%N = true) by reflexivity.
  destruct j as [|c j].
  - change ([] ++ fence ++ b) with (tick :: tick :: tick :: b).
    rewrite find_cons, !startswith_same, (startswith_other _ _ _ _ Ht).
    rewrite find_cons, !startswith_same, (startswith_other _ _ _ _ Ht).
    rewrite find_cons, !startswith_same, (startswith_other _ _ _ _ Ht).
    change (find (tick :: tick :: tick :: 106%N :: `"son")
                 (tick :: tick :: tick :: b))
      with (find fence_json (fence ++ b)).
    now rewrite Hend.
  - change ((c :: j) ++ fence ++ b) with (c :: j ++ fence ++ b).
    assert (Hc : (c =? tick)%N = false).
    { simpl no_tick in Hj. apply andb_prop in Hj. destruct Hj as [Hc _].
      now apply negb_true_iff in Hc. }
    assert (Hcj : (c =? 106)%N = false).
    { simpl in Hjj. rewrite andb_true_r in Hjj. now rewrite N.eqb_sym. }
    rewrite find_cons, !startswith_same, (startswith_other _ _ _ _ Hcj).
    rewrite find_cons, !startswith_same, (startswith_other _ _ _ _ Hc).
    rewrite find_cons, !startswith_same, (startswith_other _ _ _ _ Hc).
    change (c :: j ++ fence ++ b) with ((c :: j) ++ fence ++ b).
    rewrite (find_skip _ _ _ Hj).
    change (tick :: tick :: tick :: 106%N :: `"son") with fence_json.
    now rewrite Hend.
Qed.

(** X13. Round trip through a plain fenced block: a text without
    backticks that does not begin with the letter j, wrapped in [```] and
    [```] and put between prose without backticks (the prose after it not
    beginning with j either), comes back from the clean-up as it went
    in. *)
Theorem plain_fence_round_trip :
  forall pre j post,
    no_tick pre = true -> no_tick j = true -> no_tick post = true ->
    startswith `"j" j = false -> startswith `"j" post = false ->
    clean_json (pre ++ fence ++ j ++ fence ++ post) = Ok j.
Proof.
  intros pre j post Hpre Hj Hpost Hjj Hpj.
  rewrite clean_json_cases. cbv zeta.
  assert (Es : strip (pre ++ fence ++ j ++ fence ++ post)
               = lstrip pre ++ fence ++ (j ++ fence ++ rstrip post)).
  { change fence with (tick :: `"``") at 1.
    change fence with (`"``" ++ [tick]) at 1.
    change (pre ++ (tick :: `"``") ++ j ++ (`"``" ++ [tick]) ++ post)
      with (pre ++ tick :: `"``" ++ j ++ `"``" ++ tick :: post).
    rewrite (app_assoc `"``"), (app_assoc (`"``" ++ j)).
    rewrite strip_around_ticks.
    now rewrite <- !app_assoc. }
  rewrite Es.
  assert (Hbj : startswith `"j" (rstrip post) = false).
  { destruct (startswith `"j" (rstrip post)) eqn:E; [|reflexivity].
    destruct (rstrip_prefix post) as [b Eb].
    apply (startswith_app_r _ _ b) in E. rewrite <- Eb in E. congruence. }
  apply no_tick_lstrip in Hpre. apply no_tick_rstrip in Hpost.
  change fence_json with (tick :: tick :: tick :: `"json") at 1.
  rewrite (find_skip _ _ _ Hpre).
  change (tick :: tick :: tick :: `"json") with fence_json.
  rewrite (plain_block_not_json _ _ Hj Hpost Hjj Hbj). cbn [option_map].
  change fence with (tick :: [tick; tick]) at 1 3.
  rewrite (find_skip _ _ _ Hpre).
  change (tick :: [tick; tick]) with fence.
  rewrite (find_start _ _ (startswith_own fence _)).
  cbn [option_map]. rewrite Nat.add_0_r, app_assoc.
  replace (length (lstrip pre) + len fence)%nat
    with (length (lstrip pre ++ fence))
    by (rewrite length_app; reflexivity).
  rewrite skipn_past. unfold upto.
  rewrite (find_closing_fence _ _ Hj). now rewrite firstn_upto.
Qed.

Lemma plain_fence_round_trip_witness :
  no_tick `"Result: " = true
  /\ no_tick `"{topic: Mars}" = true
  /\ no_tick `" Done." = true
  /\ startswith `"j" `"{topic: Mars}" = false
  /\ startswith `"j" `" Done." = false
  /\ clean_json (`"Result: " ++ fence ++ `"{topic: Mars}" ++ fence
                 ++ `" Done.")
     = Ok `"{topic: Mars}".
Proof.
  split; [reflexivity|]. split; [reflexivity|]. split; [reflexivity|].
  split; [reflexivity|]. split; [reflexivity|].
  apply (plain_fence_round_trip `"Result: " `"{topic: Mars}" `" Done.");
    reflexivity.
Defined.

(* ================================================================== *)
(** * More on the front end: what a visit may change *)
(* ================================================================== *)

Section Keeping.

Variable R : World -> World -> Prop.
Hypothesis R_refl : forall w, R w w.
Hypothesis R_trans : forall w1 w2 w3, R w1 w2 -> R w2 w3 -> R w1 w3.
Hypothesis R_show : forall wd w, R w (snd (show wd w)).
Hypothesis R_write :
  forall doc w,
    R w (mkWorld (environ w) ((default_filename, doc) :: files w)
                 (denied w) (screen w) (kickoffs w)).

Lemma keeps_ret {A} (a : A) : keeps R (io_ret a).
Proof. intros w. apply R_refl. Qed.

Lemma keeps_lift {A} (r : result A) : keeps R (lift r).
Proof. intros w. apply R_refl. Qed.

Lemma keeps_show wd : keeps R (show wd).
Proof. intros w. apply R_show. Qed.

Lemma keeps_bind {A B} (m : IO A) (k : A -> IO B) :
  keeps R m -> (forall a, keeps R (k a)) -> keeps R (io_bind m k).
Proof.
  intros Hm Hk w. unfold io_bind. specialize (Hm w).
  destruct (m w) as [[a|e] w1]; cbn [snd] in *; [|exact Hm].
  exact (R_trans _ _ _ Hm (Hk a w1)).
Qed.

Lemma keeps_try {A} (m : IO A) (h : exn -> IO A) :
  keeps R m -> (forall e, keeps R (h e)) -> keeps R (try_except m h).
Proof.
  intros Hm Hh w. unfold try_except. specialize (Hm w).
  destruct (m w) as [[a|e] w1]; cbn [snd] in *; [exact Hm|].
  exact (R_trans _ _ _ Hm (Hh e w1)).
Qed.

Lemma keeps_for_in {A} (l : list A) (body : A -> IO unit) :
  (forall x, keeps R (body x)) -> keeps R (io_for_in l body).
Proof.
  intros Hb. induction l as [|x l IH]; simpl.
  - apply keeps_ret.
  - apply keeps_bind; [apply Hb|intros _; exact IH].
Qed.

Lemma keeps_open_rb path : keeps R (open_rb path).
Proof.
  intros w. unfold open_rb. destruct (lookup path (files w)); apply R_refl.
Qed.

Lemma keeps_create repr data :
  keeps R (create_infographic_pdf repr data default_filename).
Proof.
  intros w. unfold create_infographic_pdf.
  rewrite create_infographic_pdf_cases.
  destruct (draw_page repr wrap_limit data default_filename);
    [|apply R_refl].
  destruct (denied w default_filename); [apply R_refl|apply R_write].
Qed.

Lemma keeps_report e : keeps R (report e).
Proof.
  unfold report. apply keeps_bind; [apply keeps_show|].
  intros _. apply keeps_show.
Qed.

(** What follows the crew's run stays within [R]. *)
Lemma keeps_present repr json_loads topic output :
  keeps R (present repr json_loads topic output).
Proof.
  unfold present.
  repeat first
    [ apply keeps_show
    | apply keeps_lift
    | apply keeps_open_rb
    | apply keeps_create
    | apply keeps_ret
    | apply keeps_for_in; intros [i stat]; destruct (i <? 3)%nat
    | apply keeps_bind; [|intros ?] ].
Qed.

End Keeping.

Lemma bystander_refl w : bystander w w.
Proof.
  split; [reflexivity|]. split; [exists []; now rewrite app_nil_r|auto].
Qed.

Lemma bystander_trans w1 w2 w3 :
  bystander w1 w2 -> bystander w2 w3 -> bystander w1 w3.
Proof.
  intros (D1 & (m1 & S1) & F1) (D2 & (m2 & S2) & F2).
  split; [congruence|]. split.
  - exists (m1 ++ m2). now rewrite S2, S1, app_assoc.
  - intros other H. now rewrite F2, F1.
Qed.

Lemma bystander_show wd w : bystander w (snd (show wd w)).
Proof.
  split; [reflexivity|]. split; [exists [wd]; reflexivity|auto].
Qed.

Lemma bystander_write doc w :
  bystander w (mkWorld (environ w) ((default_filename, doc) :: files w)
                       (denied w) (screen w) (kickoffs w)).
Proof.
  split; [reflexivity|]. split; [exists []; simpl; now rewrite app_nil_r|].
  intros other H. cbn [files]. now apply lookup_other.
Qed.

Lemma offline_refl w : offline w w.
Proof. split; reflexivity. Qed.

Lemma offline_trans w1 w2 w3 : offline w1 w2 -> offline w2 w3 -> offline w1 w3.
Proof. intros [E1 K1] [E2 K2]. split; congruence. Qed.

Lemma offline_show wd w : offline w (snd (show wd w)).
Proof. split; reflexivity. Qed.

Lemma offline_write doc w :
  offline w (mkWorld (environ w) ((default_filename, doc) :: files w)
                     (denied w) (screen w) (kickoffs w)).
Proof. split; reflexivity. Qed.

Section Visits.

Variable repr : value -> str.
Variable json_loads : str -> result value.
Variable crew_kickoff : str -> str -> result str.

(** The [try] is the crew's run, then [present]. *)
Lemma generate_present topic api_key :
  generate repr json_loads crew_kickoff topic api_key
  = io_bind (run_crew_research crew_kickoff topic api_key)
            (present repr json_loads topic).
Proof. reflexivity. Qed.

(** The world once the key is exported and the crew has run. *)
Lemma run_crew_research_world topic api_key w :
  run_crew_research crew_kickoff topic api_key w
  = (crew_kickoff topic api_key,
     mkWorld ((`"GOOGLE_API_KEY", api_key) :: environ w) (files w) (denied w)
             (screen w) (kickoffs w ++ [(topic, api_key)])).
Proof. reflexivity. Qed.

(** The handler never lets an exception out. *)
Lemma handler_returns topic api_key w :
  fst (try_except (generate repr json_loads crew_kickoff topic api_key)
                  report w) = Ok tt.
Proof.
  unfold try_except.
  destruct (generate repr json_loads crew_kickoff topic api_key w)
    as [[[]|e] w1]; reflexivity.
Qed.

Lemma handler_bystander topic api_key :
  keeps bystander
    (try_except (generate repr json_loads crew_kickoff topic api_key) report).
Proof.
  apply keeps_try;
    try (exact bystander_trans || intros; apply keeps_report;
         (exact bystander_trans || exact bystander_show)).
  rewrite generate_present. apply keeps_bind; try exact bystander_trans.
  - intros w. rewrite run_crew_research_world. cbn [snd].
    split; [reflexivity|]. split; [exists []; simpl; now rewrite app_nil_r|].
    auto.
  - intros output. apply keeps_present;
      (exact bystander_refl || exact bystander_trans
       || exact bystander_show || exact bystander_write).
Qed.

(** After the crew's run the handler stays offline. *)
Lemma handler_offline topic api_key w :
  offline
    (mkWorld ((`"GOOGLE_API_KEY", api_key) :: environ w) (files w) (denied w)
             (screen w) (kickoffs w ++ [(topic, api_key)]))
    (snd (try_except (generate repr json_loads crew_kickoff topic api_key)
                     report w)).
Proof.
  unfold try_except. rewrite generate_present. unfold io_bind.
  rewrite run_crew_research_world.
  destruct (crew_kickoff topic api_key) as [output|e].
  - pose proof (keeps_present offline offline_refl offline_trans
                  offline_show offline_write repr json_loads topic output
                  (mkWorld ((`"GOOGLE_API_KEY", api_key) :: environ w)
                     (files w) (denied w) (screen w)
                     (kickoffs w ++ [(topic, api_key)]))) as H.
    destruct (present repr json_loads topic output _) as [[[]|e] w1];
      cbn [snd] in *; [exact H|].
    apply (offline_trans _ _ _ H).
    apply (keeps_report offline offline_trans offline_show).
  - apply (keeps_report offline offline_trans offline_show).
Qed.

End Visits.

(** Steps of the [IO] sequencing. *)
Lemma io_bind_lift_ok {A B} (a : A) (k : A -> IO B) w :
  io_bind (lift (Ok a)) k w = k a w.
Proof. reflexivity. Qed.

Lemma io_bind_show {B} wd (k : unit -> IO B) w :
  io_bind (show wd) k w
  = k tt (mkWorld (environ w) (files w) (denied w) (screen w ++ [wd])
                  (kickoffs w)).
Proof. reflexivity. Qed.

Lemma io_bind_ok {A B} (m : IO A) (k : A -> IO B) w a w1 :
  m w = (Ok a, w1) -> io_bind m k w = k a w1.
Proof. intros E. unfold io_bind. now rewrite E. Qed.

Lemma io_bind_raise {A B} (m : IO A) (k : A -> IO B) w e w1 :
  m w = (Raise e, w1) -> io_bind m k w = (Raise e, w1).
Proof. intros E. unfold io_bind. now rewrite E. Qed.

(** The metrics loop of [main] (lines 236-238): a metric for each of the
    first three stats, nothing for the others, which are not looked at. *)
Lemma metrics_loop l : forall s w,
  forallb is_dict (firstn (3 - s) l) = true ->
  io_for_in (combine (seq s (length l)) l)
    (fun i_stat : nat * value =>
       let '(i, stat) := i_stat in
       if (i <? 3)%nat then
         l <~ lift (get stat `"label" VNone) ;;
         v <~ lift (get stat `"value" VNone) ;;
         show (Metric i l v)
       else io_ret tt) w
  = (Ok tt,
     mkWorld (environ w) (files w) (denied w)
       (screen w
        ++ map metric_of
             (combine (seq s (length (firstn (3 - s) l)))
                      (firstn (3 - s) l)))
       (kickoffs w)).
Proof.
  induction l as [|x l IH]; intros s w Hd.
  - rewrite firstn_nil. simpl. rewrite app_nil_r. now destruct w.
  - cbn [length seq combine io_for_in].
    destruct (s <? 3)%nat eqn:Es.
    + apply Nat.ltb_lt in Es.
      replace (3 - s)%nat with (S (3 - S s)) in * by lia.
      cbn [firstn forallb] in Hd. apply andb_prop in Hd.
      destruct Hd as [Hx Hd]. destruct x; try discriminate.
      cbn [get]. unfold io_bind at 1. rewrite !io_bind_lift_ok.
      unfold show at 1. rewrite (IH (S s) _ Hd).
      cbn [environ files denied screen kickoffs firstn length seq combine
           map].
      rewrite <- app_assoc. reflexivity.
    + apply Nat.ltb_ge in Es.
      replace (3 - s)%nat with 0%nat in * by lia.
      unfold io_bind at 1. unfold io_ret at 1.
      rewrite (IH (S s) w).
      * replace (3 - S s)%nat with 0%nat by lia. reflexivity.
      * replace (3 - S s)%nat with 0%nat by lia. reflexivity.
Qed.

Section Shows.

Variable repr : value -> str.
Variable json_loads : str -> result value.

(** Once the answer has been parsed into a dict whose first three stats are
    dicts, the record is on the screen and the renderer is called. *)
Lemma present_shown topic output fields stats w :
  (forall raw, clean_json output = Ok raw -> json_loads raw = Ok (VDict fields)) ->
  dict_get fields `"stats" (VList []) = VList stats ->
  forallb is_dict (firstn 3 stats) = true ->
  present repr json_loads topic output w
  = (pdf_file <~ create_infographic_pdf repr (VDict fields) default_filename ;;
     f <~ open_rb pdf_file ;;
     show (DownloadButton `"Download PDF" f (topic ++ `"_infographic.pdf")
                          `"application/pdf"))
      (mkWorld (environ w) (files w) (denied w)
               (screen w ++ record_widgets repr topic fields stats)
               (kickoffs w)).
Proof.
  intros Hparse Hstats Hdict. unfold present.
  rewrite clean_json_cases, io_bind_lift_ok.
  rewrite (Hparse _ (clean_json_cases output)), io_bind_lift_ok.
  rewrite io_bind_show. cbn [get]. rewrite io_bind_lift_ok, io_bind_show.
  rewrite io_bind_lift_ok, io_bind_show, io_bind_show, io_bind_lift_ok.
  rewrite Hstats. cbn [iterate]. rewrite io_bind_lift_ok.
  unfold enumerate at 1.
  rewrite (io_bind_ok _ _ _ _ _ (metrics_loop stats 0 _ Hdict)).
  rewrite io_bind_lift_ok, io_bind_show.
  cbn [environ files denied screen kickoffs].
  unfold record_widgets, enumerate.
  rewrite <- !app_assoc. reflexivity.
Qed.

End Shows.

Section Outcomes.

Variable repr : value -> str.
Variable json_loads : str -> result value.
Variable crew_kickoff : str -> str -> result str.

(** A summary that is not a str stops the renderer after the stats. *)
Lemma draw_page_summary_fault limit fields filename stats :
  dict_get fields `"stats" (VList []) = VList stats ->
  forallb is_dict (firstn 3 stats) = true ->
  is_str (dict_get fields `"summary" (VStr `"No summary available."))
    = false ->
  draw_page repr limit (VDict fields) filename
  = Raise (no_attribute
             (dict_get fields `"summary" (VStr `"No summary available."))
             "split").
Proof.
  intros Hstats Hdict Hsum. unfold draw_page. cbn [get bind].
  rewrite Hstats. cbn [slice_to bind iterate].
  match goal with
  | |- context [for_in (enumerate (firstn 3 stats)) _ ?c0] =>
      destruct (stat_loop repr (firstn 3 stats) 0 c0 Hdict)
        as (c' & E & _)
  end.
  unfold enumerate. unfold box_width, box_y in E. rewrite E. cbn [bind].
  destruct (dict_get fields `"summary" (VStr `"No summary available."));
    try discriminate; reflexivity.
Qed.

(** The visit of someone who gave a key and a topic and pressed the
    button. *)
Lemma main_runs v w :
  pressed v = true -> api_key_of v w <> [] -> typed_topic v <> [] ->
  main repr json_loads crew_kickoff v w
  = try_except
      (generate repr json_loads crew_kickoff (typed_topic v)
                (api_key_of v w)) report
      (mkWorld (environ w) (files w) (denied w)
         (screen w
          ++ form (or_empty (lookup `"GOOGLE_API_KEY" (environ w)))
          ++ [spinner])
         (kickoffs w)).
Proof.
  intros Hp Hk Ht. rewrite main_cases, Hp.
  destruct (api_key_of v w); [contradiction|].
  destruct (typed_topic v); [contradiction|].
  cbn [py_not]. rewrite io_bind_show. unfold with_form.
  cbn [environ files denied screen kickoffs].
  now rewrite <- app_assoc.
Qed.

End Outcomes.

(** X14. No [Exception] gets out of [main]: whatever the visitor does,
    whatever the upstream and the parser answer, whichever [Exception] they
    or the renderer raise, whatever the record holds and whether or not the
    file can be written, [main] returns, because the handler that reports
    the exception does not raise itself. (What is not an [Exception], such
    as a [KeyboardInterrupt], is not caught by [except Exception] and is
    outside this statement.) *)
Theorem main_never_raises :
  forall repr json_loads crew_kickoff v w,
    fst (main repr json_loads crew_kickoff v w) = Ok tt.
Proof.
  intros repr json_loads crew_kickoff v w. rewrite main_cases.
  destruct (pressed v); [|reflexivity].
  destruct (py_not _); [reflexivity|].
  destruct (py_not _); [reflexivity|].
  rewrite io_bind_show. apply handler_returns.
Qed.

(** X15. A visit only adds to the screen, the form first; it leaves what
    can be written as it was and changes no file other than
    [infographic.pdf], whatever the topic. *)
Theorem visit_is_bystander :
  forall repr json_loads crew_kickoff v w,
    denied (snd (main repr json_loads crew_kickoff v w)) = denied w
    /\ (exists more,
           screen (snd (main repr json_loads crew_kickoff v w))
           = screen w
             ++ form (or_empty (lookup `"GOOGLE_API_KEY" (environ w)))
             ++ more)
    /\ (forall other,
           other <> default_filename ->
           lookup other (files (snd (main repr json_loads crew_kickoff v w)))
           = lookup other (files w)).
Proof.
  intros repr json_loads crew_kickoff v w.
  assert (H : bystander (with_form w)
                        (snd (main repr json_loads crew_kickoff v w))).
  { rewrite main_cases.
    destruct (pressed v); [|apply bystander_refl].
    destruct (py_not _); [apply bystander_show|].
    destruct (py_not _); [apply bystander_show|].
    rewrite io_bind_show.
    eapply bystander_trans; [|apply handler_bystander].
    apply (bystander_show spinner). }
  destruct H as (D & (more & S) & F). unfold with_form in *.
  cbn [denied screen files] in *.
  split; [exact D|]. split; [|exact F].
  exists more. now rewrite S, <- app_assoc.
Qed.

Lemma visit_is_bystander_witness :
  `"notes.txt" <> default_filename
  /\ lookup `"notes.txt"
       (files (snd (main sample_repr sample_loads_record sample_crew
                         sample_visitor sample_world)))
     = lookup `"notes.txt" (files sample_world).
Proof.
  split; [discriminate|].
  apply (proj2 (proj2 (visit_is_bystander sample_repr sample_loads_record
                         sample_crew sample_visitor sample_world))).
  discriminate.
Defined.

(** X16. For a key the environment takes, the handler goes to the crew
    at most once per visit, and exactly once when the button is pressed
    with a key and a topic, whatever happens after: there is no retry. *)
Theorem one_upstream_run :
  forall repr json_loads crew_kickoff v w,
    exportable (api_key_of v w) = true ->
    kickoffs (snd (main repr json_loads crew_kickoff v w))
    = if runs_crew v w
      then kickoffs w ++ [(typed_topic v, api_key_of v w)]
      else kickoffs w.
Proof.
  intros repr json_loads crew_kickoff v w _. unfold runs_crew.
  rewrite main_cases.
  destruct (pressed v); [|reflexivity].
  destruct (py_not (api_key_of v w)); [reflexivity|].
  destruct (py_not (typed_topic v)); [reflexivity|].
  rewrite io_bind_show. cbn [andb negb].
  now destruct (handler_offline repr json_loads crew_kickoff (typed_topic v)
                  (api_key_of v w)
                  (mkWorld (environ (with_form w)) (files (with_form w))
                     (denied (with_form w)) (screen (with_form w) ++ [spinner])
                     (kickoffs (with_form w)))) as [_ K].
Qed.

Lemma one_upstream_run_witness :
  exportable (api_key_of sample_visitor sample_world) = true
  /\ kickoffs (snd (main sample_repr sample_loads sample_crew_down
                         sample_visitor sample_world))
     = [(`"Mars", `"key")].
Proof.
  split; [reflexivity|].
  apply (one_upstream_run sample_repr sample_loads sample_crew_down
           sample_visitor sample_world eq_refl).
Defined.

(** X17. For a key the environment takes, a visit that goes to the crew
    leaves the key in the environment, as [GOOGLE_API_KEY], whether the run
    succeeds or not; so on the next visit a key field left alone holds that
    key. A visit that does not go to the crew leaves the environment as it
    was. *)
Theorem key_stays_in_environment :
  forall repr json_loads crew_kickoff v w,
    exportable (api_key_of v w) = true ->
    environ (snd (main repr json_loads crew_kickoff v w))
    = (if runs_crew v w
       then (`"GOOGLE_API_KEY", api_key_of v w) :: environ w
       else environ w)
    /\ (runs_crew v w = true ->
          forall next,
            typed_key next = None ->
            api_key_of next (snd (main repr json_loads crew_kickoff v w))
            = api_key_of v w).
Proof.
  intros repr json_loads crew_kickoff v w _.
  assert (H : environ (snd (main repr json_loads crew_kickoff v w))
              = if runs_crew v w
                then (`"GOOGLE_API_KEY", api_key_of v w) :: environ w
                else environ w).
  { unfold runs_crew. rewrite main_cases.
    destruct (pressed v); [|reflexivity].
    destruct (py_not (api_key_of v w)); [reflexivity|].
    destruct (py_not (typed_topic v)); [reflexivity|].
    rewrite io_bind_show. cbn [andb negb].
    now destruct (handler_offline repr json_loads crew_kickoff
                    (typed_topic v) (api_key_of v w)
                    (mkWorld (environ (with_form w)) (files (with_form w))
                       (denied (with_form w))
                       (screen (with_form w) ++ [spinner])
                       (kickoffs (with_form w)))) as [E _]. }
  split; [exact H|].
  intros Hr next Hn. unfold api_key_of at 1. rewrite Hn, H, Hr.
  now rewrite lookup_head.
Qed.

Lemma key_stays_in_environment_witness :
  exportable (api_key_of sample_visitor sample_world) = true
  /\ runs_crew sample_visitor sample_world = true
  /\ typed_key (mkVisitor None `"Venus" false) = None
  /\ api_key_of (mkVisitor None `"Venus" false)
       (snd (main sample_repr sample_loads sample_crew sample_visitor
                  sample_world))
     = `"key".
Proof.
  split; [reflexivity|]. split; [reflexivity|]. split; [reflexivity|].
  apply (proj2 (key_stays_in_environment sample_repr sample_loads sample_crew
                  sample_visitor sample_world eq_refl) eq_refl
           (mkVisitor None `"Venus" false) eq_refl).
Defined.

(** X18. A visit that goes well: the answer parses into a dict that the
    renderer accepts and the file can be written. Then the screen gets, in
    this order, the form, the spinner, the success note, the topic (the
    record's, the typed one if the record has none), the summary as the
    record has it, three columns with a metric for each of the first three
    stats, the fun fact, and a download button for the page just saved,
    under the name of the typed topic followed by [_infographic.pdf]; the
    page is saved as [infographic.pdf]. (For stats whose label and value
    [st.metric] accepts.) *)
Theorem visit_shows_and_saves :
  forall repr json_loads crew_kickoff v w output fields stats words,
    pressed v = true ->
    api_key_of v w <> [] ->
    typed_topic v <> [] ->
    crew_kickoff (typed_topic v) (api_key_of v w) = Ok output ->
    (forall raw, clean_json output = Ok raw ->
                 json_loads raw = Ok (VDict fields)) ->
    dict_get fields `"stats" (VList []) = VList stats ->
    forallb is_dict (firstn 3 stats) = true ->
    forallb metric_ok (firstn 3 stats) = true ->
    method_split (dict_get fields `"summary" (VStr `"No summary available."))
      = Ok words ->
    denied w default_filename = None ->
    let page :=
      mkDocument A4
        (page_code repr wrap_limit
           (dict_get fields `"topic" (VStr `"Unknown Topic"))
           (firstn 3 stats) words
           (dict_get fields `"fun_fact" (VStr `""))) in
    main repr json_loads crew_kickoff v w
    = (Ok tt,
       mkWorld
         ((`"GOOGLE_API_KEY", api_key_of v w) :: environ w)
         ((default_filename, page) :: files w)
         (denied w)
         (screen w
          ++ form (or_empty (lookup `"GOOGLE_API_KEY" (environ w)))
          ++ [spinner]
          ++ record_widgets repr (typed_topic v) fields stats
          ++ [DownloadButton `"Download PDF" page
                (typed_topic v ++ `"_infographic.pdf") `"application/pdf"])
         (kickoffs w ++ [(typed_topic v, api_key_of v w)])).
Proof.
  intros repr json_loads crew_kickoff v w output fields stats words
         Hp Hk Ht Hcrew Hparse Hstats Hdict _ Hsplit Hw page.
  rewrite (main_runs repr json_loads crew_kickoff v w Hp Hk Ht).
  unfold try_except. rewrite generate_present.
  unfold io_bind at 1. rewrite run_crew_research_world, Hcrew.
  cbv beta iota.
  rewrite (present_shown repr json_loads _ _ fields stats _ Hparse Hstats
             Hdict).
  unfold create_infographic_pdf.
  match goal with
  | |- context [io_bind (create_infographic_pdf_at _ _ _ _) _ ?W] =>
      rewrite (io_bind_ok _ _ W _ _
                 (create_infographic_pdf_layout repr wrap_limit fields
                    default_filename (VList (firstn 3 stats))
                    (firstn 3 stats) words W
                    ltac:(now rewrite Hstats) eq_refl Hdict Hsplit Hw))
  end.
  unfold io_bind, open_rb. cbn [files]. rewrite lookup_head.
  unfold show. cbn [environ files denied screen kickoffs].
  rewrite <- !app_assoc. reflexivity.
Qed.

Lemma visit_shows_and_saves_witness :
  pressed sample_visitor = true
  /\ api_key_of sample_visitor sample_world <> []
  /\ typed_topic sample_visitor <> []
  /\ sample_crew `"Mars" `"key" = Ok `"Sorry, no data about Mars"
  /\ (forall raw, clean_json `"Sorry, no data about Mars" = Ok raw ->
        sample_loads_record raw = Ok (VDict sample_fields))
  /\ dict_get sample_fields `"stats" (VList []) = VList sample_stats
  /\ forallb is_dict (firstn 3 sample_stats) = true
  /\ forallb metric_ok (firstn 3 sample_stats) = true
  /\ method_split (dict_get sample_fields `"summary"
                            (VStr `"No summary available."))
     = Ok [`"No"; `"summary"; `"available."]
  /\ denied sample_world default_filename = None
  /\ fst (main sample_repr sample_loads_record sample_crew sample_visitor
               sample_world) = Ok tt
  /\ length (filter is_result
               (screen (snd (main sample_repr sample_loads_record sample_crew
                                  sample_visitor sample_world)))) = 8%nat.
Proof.
  split; [reflexivity|]. split; [discriminate|]. split; [discriminate|].
  split; [reflexivity|]. split; [reflexivity|]. split; [reflexivity|].
  split; [reflexivity|]. split; [reflexivity|]. split; [reflexivity|].
  split; [reflexivity|].
  rewrite (visit_shows_and_saves sample_repr sample_loads_record sample_crew
             sample_visitor sample_world `"Sorry, no data about Mars"
             sample_fields sample_stats [`"No"; `"summary"; `"available."]
             eq_refl ltac:(discriminate) ltac:(discriminate) eq_refl
             (fun _ _ => eq_refl) eq_refl eq_refl eq_refl eq_refl eq_refl).
  split; reflexivity.
Defined.

(** X19. Results are on the screen before the renderer runs: when the
    answer parses but the summary is not a str, the success note, the topic,
    the summary, the columns, the metrics and the fun fact are shown, and
    then one error, with the message of the [AttributeError], and the hint;
    no file is written and there is no download button. (For stats whose
    label and value [st.metric] accepts.) *)
Theorem results_shown_before_render_fault :
  forall repr json_loads crew_kickoff v w output fields stats,
    pressed v = true ->
    api_key_of v w <> [] ->
    typed_topic v <> [] ->
    crew_kickoff (typed_topic v) (api_key_of v w) = Ok output ->
    (forall raw, clean_json output = Ok raw ->
                 json_loads raw = Ok (VDict fields)) ->
    dict_get fields `"stats" (VList []) = VList stats ->
    forallb is_dict (firstn 3 stats) = true ->
    forallb metric_ok (firstn 3 stats) = true ->
    is_str (dict_get fields `"summary" (VStr `"No summary available."))
      = false ->
    main repr json_loads crew_kickoff v w
    = (Ok tt,
       mkWorld
         ((`"GOOGLE_API_KEY", api_key_of v w) :: environ w)
         (files w)
         (denied w)
         (screen w
          ++ form (or_empty (lookup `"GOOGLE_API_KEY" (environ w)))
          ++ [spinner]
          ++ record_widgets repr (typed_topic v) fields stats
          ++ [ Error (`"Error: "
                      ++ exn_message
                           (no_attribute
                              (dict_get fields `"summary"
                                        (VStr `"No summary available."))
                              "split"));
               Warning key_hint ])
         (kickoffs w ++ [(typed_topic v, api_key_of v w)])).
Proof.
  intros repr json_loads crew_kickoff v w output fields stats
         Hp Hk Ht Hcrew Hparse Hstats Hdict _ Hsum.
  rewrite (main_runs repr json_loads crew_kickoff v w Hp Hk Ht).
  unfold try_except. rewrite generate_present.
  unfold io_bind at 1. rewrite run_crew_research_world, Hcrew.
  cbv beta iota.
  rewrite (present_shown repr json_loads _ _ fields stats _ Hparse Hstats
             Hdict).
  unfold create_infographic_pdf.
  erewrite io_bind_raise.
  2: { rewrite create_infographic_pdf_cases.
       rewrite (draw_page_summary_fault repr wrap_limit fields
                  default_filename stats Hstats Hdict Hsum).
       reflexivity. }
  unfold report, io_bind, show. cbn [environ files denied screen kickoffs].
  rewrite <- !app_assoc. reflexivity.
Qed.

Lemma results_shown_before_render_fault_witness :
  pressed sample_visitor = true
  /\ api_key_of sample_visitor sample_world <> []
  /\ typed_topic sample_visitor <> []
  /\ sample_crew `"Mars" `"key" = Ok `"Sorry, no data about Mars"
  /\ (forall raw, clean_json `"Sorry, no data about Mars" = Ok raw ->
        sample_loads_number raw
        = Ok (VDict [(`"topic", VStr `"Mars"); (`"summary", VInt 42)]))
  /\ dict_get [(`"topic", VStr `"Mars"); (`"summary", VInt 42)] `"stats"
              (VList []) = VList []
  /\ forallb is_dict (firstn 3 []) = true
  /\ forallb metric_ok (firstn 3 []) = true
  /\ is_str (dict_get [(`"topic", VStr `"Mars"); (`"summary", VInt 42)]
                      `"summary" (VStr `"No summary available.")) = false
  /\ files (snd (main sample_repr sample_loads_number sample_crew
                      sample_visitor sample_world)) = []
  /\ length (filter is_result
               (screen (snd (main sample_repr sample_loads_number sample_crew
                                  sample_visitor sample_world)))) = 4%nat.
Proof.
  split; [reflexivity|]. split; [discriminate|]. split; [discriminate|].
  split; [reflexivity|]. split; [reflexivity|]. split; [reflexivity|].
  split; [reflexivity|]. split; [reflexivity|]. split; [reflexivity|].
  rewrite (results_shown_before_render_fault sample_repr sample_loads_number
             sample_crew sample_visitor sample_world
             `"Sorry, no data about Mars"
             [(`"topic", VStr `"Mars"); (`"summary", VInt 42)] []
             eq_refl ltac:(discriminate) ltac:(discriminate) eq_refl
             (fun _ _ => eq_refl) eq_refl eq_refl eq_refl eq_refl).
  split; reflexivity.
Defined.

(** X20. When the key has been exported (it is one the environment takes)
    and building or running the crew raises an [Exception], the visit shows
    the form, the spinner, one error with the message of the exception, and
    the hint; nothing is parsed ([json.loads] has no say in the outcome),
    nothing of a record is shown and no file is written. *)
Theorem upstream_failure_reported :
  forall repr json_loads crew_kickoff v w e,
    pressed v = true ->
    api_key_of v w <> [] ->
    exportable (api_key_of v w) = true ->
    typed_topic v <> [] ->
    crew_kickoff (typed_topic v) (api_key_of v w) = Raise e ->
    main repr json_loads crew_kickoff v w
    = (Ok tt,
       mkWorld
         ((`"GOOGLE_API_KEY", api_key_of v w) :: environ w)
         (files w)
         (denied w)
         (screen w
          ++ form (or_empty (lookup `"GOOGLE_API_KEY" (environ w)))
          ++ [ spinner;
               Error (`"Error: " ++ exn_message e);
               Warning key_hint ])
         (kickoffs w ++ [(typed_topic v, api_key_of v w)])).
Proof.
  intros repr json_loads crew_kickoff v w e Hp Hk _ Ht Hcrew.
  rewrite (main_runs repr json_loads crew_kickoff v w Hp Hk Ht).
  unfold try_except. rewrite generate_present.
  erewrite io_bind_raise.
  2: { rewrite run_crew_research_world, Hcrew. reflexivity. }
  unfold report, io_bind, show. cbn [environ files denied screen kickoffs].
  rewrite <- !app_assoc. reflexivity.
Qed.

Lemma upstream_failure_reported_witness :
  pressed sample_visitor = true
  /\ api_key_of sample_visitor sample_world <> []
  /\ exportable (api_key_of sample_visitor sample_world) = true
  /\ typed_topic sample_visitor <> []
  /\ sample_crew_down `"Mars" `"key"
     = Raise (Exn UpstreamError `"404 model not found")
  /\ shown_since sample_world
       (snd (main sample_repr sample_loads sample_crew_down sample_visitor
                  sample_world))
     = form [] ++ [ spinner;
                    Error `"Error: 404 model not found";
                    Warning key_hint ].
Proof.
  split; [reflexivity|]. split; [discriminate|]. split; [reflexivity|].
  split; [discriminate|]. split; [reflexivity|].
  rewrite (upstream_failure_reported sample_repr sample_loads sample_crew_down
             sample_visitor sample_world
             (Exn UpstreamError `"404 model not found")
             eq_refl ltac:(discriminate) eq_refl ltac:(discriminate)
             eq_refl).
  reflexivity.
Defined.
